(** * Listing API: data-source selection and the mock query engine

    A shallow embedding of [src/api/lib/utils.js], with what the routers
    and the middleware that call it contribute, followed by the properties
    of the source selector
    ([selectDataSource]) and of the query engine ([getListingsList],
    [getRelatedListingData], [getListingDetail]).

    Conventions of the embedding.
    - A JavaScript string is a [string] whose characters are the code units
      below 256 (Latin-1); on these [toLowerCase] and the white-space class
      are the ones ECMAScript defines.
    - A finite JavaScript number is an exact rational ([Q]) or, for ids,
      counts and time values, an exact integer ([Z]); rounding to IEEE
      doubles and overflow are not modelled.  The result of a numeric
      coercion, which may be [NaN] or infinite, is a [JSNumber].
    - An array that is only read is a [list]; the in-place behaviour of
      [Array.prototype.sort] is modelled on an explicit store of arrays in
      the module [Store].
    - An [async] function returns an [Outcome]: the value its promise is
      fulfilled with, or the error it is rejected with. *)

From Stdlib Require Import QArith Qabs ZArith String Ascii List Lia Lqa
  Permutation Sorted Bool.
From stdpp Require Import base list gmap strings sorting.
Import ListNotations.

Open Scope string_scope.
Open Scope Z_scope.
Open Scope list_scope.

(** ** JavaScript built-ins used by the source *)

Module JS.

(** *** Strings *)

Definition code (c : ascii) : N := N_of_ascii c.

(** [WhiteSpace] and [LineTerminator] code points below 256: TAB, LF, VT,
    FF, CR, SP and NBSP. *)
Definition isWhiteSpace (c : ascii) : bool :=
  ((9 <=? code c) && (code c <=? 13) || (code c =? 32) || (code c =? 160))%N.

Definition isDigit (c : ascii) : bool :=
  ((48 <=? code c) && (code c <=? 57))%N.

Definition digitValue (c : ascii) : Z := Z.of_N (code c) - 48.

(** Upper-case letters below 256: A-Z, and the Latin-1 capitals except the
    multiplication sign (215). *)
Definition isUpper (c : ascii) : bool :=
  ((65 <=? code c) && (code c <=? 90)
   || (192 <=? code c) && (code c <=? 214)
   || (216 <=? code c) && (code c <=? 222))%N.

Definition lowerChar (c : ascii) : ascii :=
  if isUpper c then ascii_of_N (code c + 32) else c.

(** [String.prototype.toLowerCase] *)
Fixpoint toLowerCase (s : string) : string :=
  match s with
  | EmptyString => EmptyString
  | String c s' => String (lowerChar c) (toLowerCase s')
  end.

(** [String.prototype.trimStart] *)
Fixpoint trimStart (s : string) : string :=
  match s with
  | EmptyString => EmptyString
  | String c s' => if isWhiteSpace c then trimStart s' else s
  end.

Definition isEmpty (s : string) : bool :=
  match s with EmptyString => true | String _ _ => false end.

(** [String.prototype.trimEnd] *)
Fixpoint trimEnd (s : string) : string :=
  match s with
  | EmptyString => EmptyString
  | String c s' =>
      let r := trimEnd s' in
      if isWhiteSpace c && isEmpty r then EmptyString else String c r
  end.

(** [String.prototype.trim] *)
Definition trim (s : string) : string := trimEnd (trimStart s).

(** [String.prototype.includes]: [includes h q] is [h.includes(q)]. *)
Fixpoint includes (h q : string) : bool :=
  String.prefix q h ||
  match h with
  | EmptyString => false
  | String _ h' => includes h' q
  end.

(** Truthiness of a string value: every string but the empty one. *)
Definition truthy (s : string) : bool := negb (isEmpty s).

(** Truthiness of a value that is a string or [undefined]. *)
Definition truthyOpt (v : option string) : bool :=
  match v with Some s => truthy s | None => false end.

(** *** Numbers *)

Inductive JSNumber : Type :=
| NaN
| NegInfinity
| Finite (q : Q)
| PosInfinity.

Definition isNaN (n : JSNumber) : bool :=
  match n with NaN => true | _ => false end.

(** [a >= b] for a finite [a]. *)
Definition geNum (a : Q) (b : JSNumber) : bool :=
  match b with
  | NaN => false
  | NegInfinity => true
  | Finite q => Qle_bool q a
  | PosInfinity => false
  end.

(** [a <= b] for a finite [a]. *)
Definition leNum (a : Q) (b : JSNumber) : bool :=
  match b with
  | NaN => false
  | NegInfinity => false
  | Finite q => Qle_bool a q
  | PosInfinity => true
  end.

(** The decimal digits a string starts with. *)
Fixpoint leadingDigits (s : string) : list Z :=
  match s with
  | EmptyString => []
  | String c s' => if isDigit c then digitValue c :: leadingDigits s' else []
  end.

Definition decimalValue (ds : list Z) : Z :=
  fold_left (fun acc d => 10 * acc + d) ds 0.

(** [parseInt(s, 10)]: leading white space is skipped, an optional sign is
    read, then the longest run of decimal digits; [None] is [NaN] (no digit
    was found).  Characters after the digits are ignored. *)
Definition parseInt10 (s : string) : option Z :=
  let t := trimStart s in
  let '(sign, rest) :=
    match t with
    | String c r =>
        if Ascii.eqb c "-" then (-1, r)
        else if Ascii.eqb c "+" then (1, r)
        else (1, t)
    | EmptyString => (1, t)
    end in
  match leadingDigits rest with
  | [] => None
  | ds => Some (sign * decimalValue ds)
  end.

(** *** Array.prototype.sort

    The comparator returns a number; [a] is placed before [b] when
    [cmp a b <= 0].  The sort is stable (ECMAScript 2019), and for a
    comparator that is a consistent ordering every stable sort returns the
    same array: it is computed here by insertion from the right, each
    element going in front of the first one it does not exceed. *)
Section Sort.
Context {A : Type}.
Variable cmp : A -> A -> Q.

Fixpoint insert (x : A) (l : list A) : list A :=
  match l with
  | [] => [x]
  | y :: l' => if Qle_bool (cmp x y) 0 then x :: l else y :: insert x l'
  end.

Definition sort (l : list A) : list A := fold_right insert [] l.
End Sort.

(** *** Ordinary objects used as dictionaries

    An object created by [{}] whose own properties all hold numbers.  The
    list keeps the own properties in the order of their creation. *)
Definition Obj : Type := list (string * Z).

(** Property names every object inherits from [Object.prototype]. *)
Definition inheritedNames : list string :=
  [ "constructor"; "__defineGetter__"; "__defineSetter__"; "hasOwnProperty";
    "__lookupGetter__"; "__lookupSetter__"; "isPrototypeOf";
    "propertyIsEnumerable"; "toString"; "valueOf"; "__proto__";
    "toLocaleString" ].

Definition isInherited (k : string) : bool :=
  existsb (String.eqb k) inheritedNames.

(** [o[k]] for an own property; [None] when [k] is not an own property. *)
Fixpoint getOwn (o : Obj) (k : string) : option Z :=
  match o with
  | [] => None
  | (k', v) :: o' => if String.eqb k k' then Some v else getOwn o' k
  end.

(** [o[k] = v]: an existing own property keeps its place, a new one is
    created after all the others. *)
Fixpoint set (o : Obj) (k : string) (v : Z) : Obj :=
  match o with
  | [] => [(k, v)]
  | (k', v') :: o' =>
      if String.eqb k k' then (k', v) :: o' else (k', v') :: set o' k v
  end.

Fixpoint allDigits (s : string) : bool :=
  match s with
  | EmptyString => true
  | String c s' => isDigit c && allDigits s'
  end.

(** An array index is the canonical decimal form of an integer between 0
    and 2^32 - 2: no sign, no leading zero.  [arrayIndex k] is its value,
    [None] when [k] is not one. *)
Definition arrayIndex (k : string) : option Z :=
  match k with
  | EmptyString => None
  | String c rest =>
      if allDigits k && (negb (Ascii.eqb c "0"%char) || isEmpty rest) then
        let n := decimalValue (leadingDigits k) in
        if n <=? 4294967294 then Some n else None
      else None
  end.

Definition isArrayIndex (k : string) : bool :=
  match arrayIndex k with Some _ => true | None => false end.

Definition indexOf (k : string) : Z :=
  match arrayIndex k with Some n => n | None => 0 end.

(** The comparator of ascending numeric index order. *)
Definition byIndex (a b : string * Z) : Q :=
  (inject_Z (indexOf (fst a)) - inject_Z (indexOf (fst b)))%Q.

(** [Object.entries(o)]: the own properties whose names are array indices
    in ascending numeric order, then the others in the order of their
    creation. *)
Definition entries (o : Obj) : list (string * Z) :=
  sort byIndex (List.filter (fun e => isArrayIndex (fst e)) o)
  ++ List.filter (fun e => negb (isArrayIndex (fst e))) o.

End JS.

(** ** Data model *)

(** A listing of the mock dataset.  [created_at] is held as the time value
    of the stored timestamp, in milliseconds since the epoch: what
    [new Date(created_at).getTime()] reads from it.  Optional fields are
    [None] when the property is missing. *)
Record Listing : Type := {
  id : Z;
  title : string;
  city : string;
  type : string;
  price : Q;
  beds : option Q;
  area_m2 : option Q;
  address : option string;
  created_at : option Z
}.

(** The [filters] argument of [getListingsList], as the listings router
    builds it from the query string: every field is a string or
    [undefined]. *)
Module Filters.
Record t : Type := {
  q : option string;
  city : option string;
  type : option string;
  minPrice : option string;
  maxPrice : option string;
  beds : option string;
  sort : option string
}.

Definition empty : t :=
  {| q := None; city := None; type := None; minPrice := None;
     maxPrice := None; beds := None; sort := None |}.
End Filters.

(** The body of the related-listings response.  The two statistics are
    [None] when a city (or type) is the name of a property inherited from
    [Object.prototype]: the value counted for it is then not a number, and
    the response is outside this model. *)
Record Bundle : Type := {
  listingId : string;
  listingCity : string;
  listingType : string;
  relatedInCity : list Listing;
  relatedByType : list Listing;
  similarPrice : list Listing;
  cityStats : option (list (string * Z));
  typeStats : option (list (string * Z))
}.

(** The JSON bodies the handlers of the repository build. *)
Inductive Body : Type :=
| ErrorBody (error : string)
| ListingsBody (listings : list Listing) (source : string)
| ListingBody (listing : Listing) (source : string)
| RelatedBody (bundle : Bundle) (source : string).

Record Response : Type := { status : Z; body : Body }.

(** [Response.json(body)] and [Response.json(body, { status })] *)
Definition json (b : Body) : Response := {| status := 200; body := b |}.
Definition jsonWith (b : Body) (st : Z) : Response := {| status := st; body := b |}.

(** The [source] field of a response body, when it has one. *)
Definition sourceOf (r : Response) : option string :=
  match body r with
  | ErrorBody _ => None
  | ListingsBody _ s => Some s
  | ListingBody _ s => Some s
  | RelatedBody _ s => Some s
  end.

(** Values thrown in the repository's handlers. *)
Inductive Thrown : Type :=
| TypeError
| Failure (message : string).

Inductive Outcome (R E : Type) : Type :=
| Fulfilled (r : R)
| Rejected (e : E).
Arguments Fulfilled {R E} r.
Arguments Rejected {R E} e.

(** The request context [c].  [query] is [None] when [c.req.query] is not a
    function; [param k] is [c.req.query(k)] and [all] is what
    [c.req.query()] returns.  [SQL] and [DB] give the truthiness of the two
    bindings; [MOCK_DATA] is [None] when the property is not set. *)
Record Query : Type := {
  param : string -> option string;
  all : option (string -> option string)
}.

Record Env : Type := {
  SQL : bool;
  DB : bool;
  MOCK_DATA : option (list Listing)
}.

Record Context : Type := {
  query : option Query;
  env : option Env
}.

(** The middleware of the application ([app.use("*", ...)]): with the
    Hyperdrive binding it makes the SQL client and sets [c.env.SQL];
    [c.env.MOCK_DATA] is set only without the binding, or when making the
    client throws.  [mockListings] is the dataset of [lib/mockData], which
    is not among the sources. *)
Definition middleware (HYPERDRIVE clientThrows : bool)
  (mockListings : list Listing) (e : Env) : Env :=
  if HYPERDRIVE then
    if clientThrows then
      {| SQL := SQL e; DB := DB e; MOCK_DATA := Some mockListings |}
    else
      {| SQL := true; DB := DB e; MOCK_DATA := MOCK_DATA e |}
  else
    {| SQL := SQL e; DB := DB e; MOCK_DATA := Some mockListings |}.

(** [c.env.MOCK_DATA], whose use as an array throws when it is missing. *)
Definition mockData (c : Context) : option (list Listing) :=
  match env c with
  | Some e => MOCK_DATA e
  | None => None
  end.

(** ** The query engine: [listingsMockUtils] and [listingRelatedMockUtils] *)

Section Engine.

(** [Number(s)] on a string, a built-in taken as a parameter. *)
Variable Number : string -> JS.JSNumber.

(** [v !== undefined && v !== null && v !== "" ? Number(v) : null] *)
Definition numericFilter (v : option string) : option JS.JSNumber :=
  match v with
  | None => None
  | Some s => if JS.isEmpty s then None else Some (Number s)
  end.

Definition orEmpty (v : option string) : string :=
  match v with Some s => s | None => EmptyString end.

(** [x || 0] for a number or [undefined] *)
Definition orZero (v : option Q) : Q :=
  match v with Some n => n | None => 0%Q end.

(** The template literal the free-text stage searches in. *)
Definition searchText (x : Listing) : string :=
  (title x ++ " " ++ city x ++ " " ++ orEmpty (address x) ++ " " ++ type x)%string.

(** The search term: [(filters.q || "").toString().trim().toLowerCase()] *)
Definition searchTerm (filters : Filters.t) : string :=
  JS.toLowerCase (JS.trim (orEmpty (Filters.q filters))).

(** The six filters of [getListingsList], in the order of the source. *)
Definition filterStages (filters : Filters.t) (data : list Listing)
  : list Listing :=
  let results := data in
  let q := searchTerm filters in
  let results :=
    if JS.truthy q then
      List.filter (fun x => JS.includes (JS.toLowerCase (searchText x)) q) results
    else results in
  let results :=
    match Filters.city filters with
    | Some v =>
        if JS.truthy v then List.filter (fun x => String.eqb (city x) v) results
        else results
    | None => results
    end in
  let results :=
    match Filters.type filters with
    | Some v =>
        if JS.truthy v then List.filter (fun x => String.eqb (type x) v) results
        else results
    | None => results
    end in
  let minPrice := numericFilter (Filters.minPrice filters) in
  let maxPrice := numericFilter (Filters.maxPrice filters) in
  let results :=
    match minPrice with
    | Some n =>
        if negb (JS.isNaN n) then List.filter (fun x => JS.geNum (price x) n) results
        else results
    | None => results
    end in
  let results :=
    match maxPrice with
    | Some n =>
        if negb (JS.isNaN n) then List.filter (fun x => JS.leNum (price x) n) results
        else results
    | None => results
    end in
  let beds' := numericFilter (Filters.beds filters) in
  match beds' with
  | Some n =>
      if negb (JS.isNaN n) then
        List.filter (fun x => JS.geNum (orZero (beds x)) n) results
      else results
  | None => results
  end.

(** [new Date(x.created_at || 0).getTime()] *)
Definition timeOf (x : Listing) : Z :=
  match created_at x with Some t => t | None => 0 end.

(** The comparators of the [switch (filters.sort)]. *)
Definition byPriceAsc (a b : Listing) : Q := (price a - price b)%Q.
Definition byPriceDesc (a b : Listing) : Q := (price b - price a)%Q.
Definition byAreaDesc (a b : Listing) : Q :=
  (orZero (area_m2 b) - orZero (area_m2 a))%Q.
Definition byNewest (a b : Listing) : Q :=
  (inject_Z (timeOf b) - inject_Z (timeOf a))%Q.

(** The sorting [switch] of [getListingsList]. *)
Definition sortStage (key : option string) (results : list Listing)
  : list Listing :=
  match key with
  | None => results
  | Some k =>
      if String.eqb k "price_asc" then JS.sort byPriceAsc results
      else if String.eqb k "price_desc" then JS.sort byPriceDesc results
      else if String.eqb k "area_desc" then JS.sort byAreaDesc results
      else if String.eqb k "newest" then JS.sort byNewest results
      else results
  end.

(** The array [getListingsList] sends back as [listings]. *)
Definition searchResults (data : list Listing) (filters : Filters.t)
  : list Listing :=
  sortStage (Filters.sort filters) (filterStages filters data).

Definition getListingsList (c : Context) (filters : Filters.t)
  : Outcome Response Thrown :=
  match mockData c with
  | None => Rejected TypeError
  | Some data => Fulfilled (json (ListingsBody (searchResults data filters) "mock"))
  end.

End Engine.

(** [x.id === n] where [n] is the result of [parseInt]: never true for
    [NaN]. *)
Definition idIs (n : option Z) (x : Listing) : bool :=
  match n with
  | Some m => id x =? m
  | None => false
  end.

(** One step of the counting loops,
    [o[k] = (o[k] || 0) + 1].  For a name inherited from
    [Object.prototype] that is not an own property, [o[k]] is a function or
    an object and the sum is not a number: [None]. *)
Definition countOne (o : JS.Obj) (k : string) : option JS.Obj :=
  match JS.getOwn o k with
  | Some n => Some (JS.set o k ((if n =? 0 then 0 else n) + 1))
  | None => if JS.isInherited k then None else Some (JS.set o k (0 + 1))
  end.

(** The [forEach] loops that fill [cities] and [types]. *)
Fixpoint countInto (o : JS.Obj) (keys : list string) : option JS.Obj :=
  match keys with
  | [] => Some o
  | k :: keys' =>
      match countOne o k with
      | Some o' => countInto o' keys'
      | None => None
      end
  end.

(** The comparator of the statistics, [b.count - a.count]. *)
Definition byCountDesc (a b : string * Z) : Q :=
  (inject_Z (snd b) - inject_Z (snd a))%Q.

(** [Object.entries(o).map(...).sort((a, b) => b.count - a.count)]; the
    objects [{ city, count }] are kept as pairs. *)
Definition stats (keys : list string) : option (list (string * Z)) :=
  match countInto [] keys with
  | Some o => Some (JS.sort byCountDesc (JS.entries o))
  | None => None
  end.

(** The comparator of [similarPrice]. *)
Definition byPriceDistance (listing a b : Listing) : Q :=
  (Qabs (price a - price listing) - Qabs (price b - price listing))%Q.

(** The bundle [getRelatedListingData] builds once the listing is found. *)
Definition relatedBundle (data : list Listing) (listingId : string)
  (listing : Listing) : Bundle :=
  let listingIdNum := JS.parseInt10 listingId in
  let listingCity := city listing in
  let listingType := type listing in
  {| listingId := listingId;
     listingCity := listingCity;
     listingType := listingType;
     relatedInCity :=
       firstn 3 (List.filter
         (fun x => String.eqb (city x) listingCity && negb (idIs listingIdNum x)) data);
     relatedByType :=
       firstn 3 (List.filter
         (fun x => String.eqb (type x) listingType && negb (idIs listingIdNum x)) data);
     similarPrice :=
       firstn 3 (JS.sort (byPriceDistance listing)
         (List.filter (fun x => negb (idIs listingIdNum x)) data));
     cityStats := stats (map city data);
     typeStats := stats (map type data) |}.

Definition notFound : Response := jsonWith (ErrorBody "Listing not found") 404.

Definition getRelatedListingData (c : Context) (listingId : string)
  : Outcome Response Thrown :=
  let listingIdNum := JS.parseInt10 listingId in
  match mockData c with
  | None => Rejected TypeError
  | Some data =>
      match List.find (idIs listingIdNum) data with
      | None => Fulfilled notFound
      | Some listing =>
          Fulfilled (json (RelatedBody (relatedBundle data listingId listing) "mock"))
      end
  end.

Definition getListingDetail (c : Context) (listingId : string)
  : Outcome Response Thrown :=
  let listingIdNum := JS.parseInt10 listingId in
  match mockData c with
  | None => Rejected TypeError
  | Some data =>
      match List.find (idIs listingIdNum) data with
      | None => Fulfilled notFound
      | Some listing => Fulfilled (json (ListingBody listing "mock"))
      end
  end.

(** ** The source selector: [selectDataSource] *)

(** [sourceParam]: the value of
    [c.req.query("source") || c.req.query()?.source], guarded by
    [typeof c.req.query === "function"].  [None] stands for the values
    [false] and [undefined], which no comparison below tells apart. *)
Definition sourceParam (c : Context) : option string :=
  match query c with
  | None => None
  | Some qf =>
      if JS.truthyOpt (param qf "source") then param qf "source"
      else match all qf with
           | Some record => record "source"
           | None => None
           end
  end.

(** [v === s] for a value that is a string or not a string at all *)
Definition isString (v : option string) (s : string) : bool :=
  match v with
  | Some s' => String.eqb s' s
  | None => false
  end.

(** [Boolean(c?.env && (c.env.SQL || c.env.DB))] *)
Definition hasDb (c : Context) : bool :=
  match env c with
  | Some e => SQL e || DB e
  | None => false
  end.

Module Selector.
Section Selector.

(** The handlers are opaque: they answer with an outcome and may change
    the world (the database, the network) on the way. *)
Context {R E World : Type}.

Definition Handler : Type := Context -> World -> Outcome R E * World.

(** What [selectDataSource] does that can be observed from outside. *)
Inductive Event : Type :=
| CallDb
| CallMock
| ConsoleError (message : string) (err : E).

Record Run : Type := { world : World; events : list Event }.

(** State passing over the world and the log of events. *)
Definition M (A : Type) : Type := Run -> A * Run.

Definition ret {A : Type} (a : A) : M A := fun r => (a, r).

Definition bind {A B : Type} (m : M A) (k : A -> M B) : M B :=
  fun r => let '(a, r') := m r in k a r'.

Definition emit (ev : Event) : M unit :=
  fun r => (tt, {| world := world r; events := events r ++ [ev] |}).

(** [await h(c)]: the call is recorded, then the handler runs. *)
Definition await (ev : Event) (h : Handler) (c : Context) : M (Outcome R E) :=
  bind (emit ev) (fun _ r =>
    let '(o, w) := h c (world r) in
    (o, {| world := w; events := events r |})).

Definition console_error (message : string) (err : E) : M unit :=
  emit (ConsoleError message err).

Definition selectDataSource (c : Context) (dbLogic mockLogic : Handler)
  : M (Outcome R E) :=
  let sourceParam := sourceParam c in
  if isString sourceParam "mock" then await CallMock mockLogic c
  else if isString sourceParam "db" then await CallDb dbLogic c
  else
    let hasDb := hasDb c in
    if negb hasDb then await CallMock mockLogic c
    else
      bind (await CallDb dbLogic c) (fun o =>
        match o with
        | Fulfilled r => ret (Fulfilled r)
        | Rejected err =>
            bind (console_error "DB logic failed, falling back to mock data:" err)
              (fun _ => await CallMock mockLogic c)
        end).

(** How often an event occurs in a log. *)
Definition isCallDb (ev : Event) : bool :=
  match ev with CallDb => true | _ => false end.
Definition isCallMock (ev : Event) : bool :=
  match ev with CallMock => true | _ => false end.
Definition isConsoleError (ev : Event) : bool :=
  match ev with ConsoleError _ _ => true | _ => false end.

Definition count (p : Event -> bool) (log : list Event) : nat :=
  length (List.filter p log).

Definition start (w : World) : Run := {| world := w; events := [] |}.

End Selector.
End Selector.

(** The mock handlers the routers give to [selectDataSource]; they leave
    the world as it is. *)
Definition listingsMock {World : Type} (Number : string -> JS.JSNumber)
  (filters : Filters.t) : @Selector.Handler Response Thrown World :=
  fun c2 w => (getListingsList Number c2 filters, w).

Definition detailMock {World : Type} (listingId : string)
  : @Selector.Handler Response Thrown World :=
  fun c2 w => (getListingDetail c2 listingId, w).

Definition relatedMock {World : Type} (listingId : string)
  : @Selector.Handler Response Thrown World :=
  fun c2 w => (getRelatedListingData c2 listingId, w).

(** The three mock handlers of the repository. *)
Inductive RepositoryMock {World : Type}
  : @Selector.Handler Response Thrown World -> Prop :=
| IsListingsMock Number filters : RepositoryMock (listingsMock Number filters)
| IsDetailMock listingId : RepositoryMock (detailMock listingId)
| IsRelatedMock listingId : RepositoryMock (relatedMock listingId).

(** ** Arrays in a store

    The same two functions with arrays as mutable objects: a location in a
    store holds the elements of an array.  [[...a]], [filter] and [slice]
    allocate a new array; [sort] rewrites the array it is called on and
    returns it; [find] and [forEach] only read.  The listings themselves
    are never written to, and stay values. *)

Module Store.

Abbreviation Loc := nat.

Abbreviation Heap := (gmap nat (list Listing)).

(** [None]: a location that holds no array was used as one. *)
Definition ST (A : Type) : Type := Heap -> option (A * Heap).

Definition ret {A : Type} (a : A) : ST A := fun h => Some (a, h).

Definition bind {A B : Type} (m : ST A) (k : A -> ST B) : ST B :=
  fun h =>
    match m h with
    | Some (a, h') => k a h'
    | None => None
    end.

Declare Scope store_scope.
Delimit Scope store_scope with store.
Notation "'do' x <- m ; k" := (bind m (fun x => k))
  (at level 10, x name, m at level 100, k at level 200) : store_scope.
Local Open Scope store_scope.

Definition alloc (a : list Listing) : ST Loc :=
  fun h => let l := fresh (dom h) in Some (l, <[l := a]> h).

Definition read (l : Loc) : ST (list Listing) :=
  fun h =>
    match h !! l with
    | Some a => Some (a, h)
    | None => None
    end.

Definition write (l : Loc) (a : list Listing) : ST unit :=
  fun h => Some (tt, <[l := a]> h).

(** [[...a]] *)
Definition spread (l : Loc) : ST Loc :=
  do a <- read l; alloc a.

(** [a.filter(p)] *)
Definition filter (p : Listing -> bool) (l : Loc) : ST Loc :=
  do a <- read l; alloc (List.filter p a).

(** [a.slice(0, n)] *)
Definition slice (n : nat) (l : Loc) : ST Loc :=
  do a <- read l; alloc (firstn n a).

(** [a.sort(cmp)]: in place, and the array itself is the result. *)
Definition sort (cmp : Listing -> Listing -> Q) (l : Loc) : ST Loc :=
  do a <- read l; do _ <- write l (JS.sort cmp a); ret l.

(** [a.find(p)] *)
Definition find (p : Listing -> bool) (l : Loc) : ST (option Listing) :=
  do a <- read l; ret (List.find p a).

(** The counting [forEach] followed by the sort of the entries, which are
    arrays of pairs no other code can reach. *)
Definition statsOf (key : Listing -> string) (l : Loc)
  : ST (option (list (string * Z))) :=
  do a <- read l; ret (stats (map key a)).

Section Engine.
Variable Number : string -> JS.JSNumber.

(** [getListingsList]; [MOCK_DATA] is the location of [c.env.MOCK_DATA]
    and the result the location of the array sent back. *)
Definition getListingsList (MOCK_DATA : Loc) (filters : Filters.t) : ST Loc :=
  do results <- spread MOCK_DATA;
  let q := searchTerm filters in
  do results <-
    (if JS.truthy q then
       filter (fun x => JS.includes (JS.toLowerCase (searchText x)) q) results
     else ret results);
  do results <-
    match Filters.city filters with
    | Some v =>
        if JS.truthy v then filter (fun x => String.eqb (city x) v) results
        else ret results
    | None => ret results
    end;
  do results <-
    match Filters.type filters with
    | Some v =>
        if JS.truthy v then filter (fun x => String.eqb (type x) v) results
        else ret results
    | None => ret results
    end;
  let minPrice := numericFilter Number (Filters.minPrice filters) in
  let maxPrice := numericFilter Number (Filters.maxPrice filters) in
  do results <-
    match minPrice with
    | Some n =>
        if negb (JS.isNaN n) then filter (fun x => JS.geNum (price x) n) results
        else ret results
    | None => ret results
    end;
  do results <-
    match maxPrice with
    | Some n =>
        if negb (JS.isNaN n) then filter (fun x => JS.leNum (price x) n) results
        else ret results
    | None => ret results
    end;
  let beds' := numericFilter Number (Filters.beds filters) in
  do results <-
    match beds' with
    | Some n =>
        if negb (JS.isNaN n) then
          filter (fun x => JS.geNum (orZero (beds x)) n) results
        else ret results
    | None => ret results
    end;
  match Filters.sort filters with
  | None => ret results
  | Some k =>
      if String.eqb k "price_asc" then sort byPriceAsc results
      else if String.eqb k "price_desc" then sort byPriceDesc results
      else if String.eqb k "area_desc" then sort byAreaDesc results
      else if String.eqb k "newest" then sort byNewest results
      else ret results
  end.
End Engine.

(** What [getRelatedListingData] builds: the three arrays by their
    locations, the statistics by their values. *)
Record Related : Type := {
  inCity : Loc;
  byType : Loc;
  similar : Loc;
  cityCounts : option (list (string * Z));
  typeCounts : option (list (string * Z))
}.

(** [getRelatedListingData]; [None] is the 404 answer. *)
Definition getRelatedListingData (MOCK_DATA : Loc) (listingId : string)
  : ST (option Related) :=
  let listingIdNum := JS.parseInt10 listingId in
  do found <- find (idIs listingIdNum) MOCK_DATA;
  match found with
  | None => ret None
  | Some listing =>
      let listingCity := city listing in
      let listingType := type listing in
      do relatedInCity <-
        (do all <- filter (fun x => String.eqb (city x) listingCity
                                    && negb (idIs listingIdNum x)) MOCK_DATA;
         slice 3 all);
      do relatedByType <-
        (do all <- filter (fun x => String.eqb (type x) listingType
                                    && negb (idIs listingIdNum x)) MOCK_DATA;
         slice 3 all);
      do similarPrice <-
        (do others <- filter (fun x => negb (idIs listingIdNum x)) MOCK_DATA;
         do sorted <- sort (byPriceDistance listing) others;
         slice 3 sorted);
      do cityStats <- statsOf city MOCK_DATA;
      do typeStats <- statsOf type MOCK_DATA;
      ret (Some {| inCity := relatedInCity; byType := relatedByType;
                   similar := similarPrice; cityCounts := cityStats;
                   typeCounts := typeStats |})
  end.

End Store.

(** ** Examples: the dataset of the specification's scenario *)

(** A [Number] for the examples: it reads an optional sign and decimal
    digits between white space, and the empty string as 0, as [Number]
    does; anything else is [NaN] here. *)
Definition decimalNumber (s : string) : JS.JSNumber :=
  let t := JS.trim s in
  let '(sign, rest) :=
    match t with
    | String c r =>
        if Ascii.eqb c "-" then (-1, r)
        else if Ascii.eqb c "+" then (1, r)
        else (1, t)
    | EmptyString => (1, t)
    end in
  if JS.isEmpty t then JS.Finite 0
  else if JS.allDigits rest && negb (JS.isEmpty rest) then
    JS.Finite (inject_Z (sign * JS.decimalValue (JS.leadingDigits rest)))
  else JS.NaN.

Definition mkListing (i : Z) (c t : string) (p : Z) : Listing :=
  {| id := i; title := "Listing"; city := c; type := t; price := inject_Z p;
     beds := None; area_m2 := None; address := None; created_at := None |}.

Definition flatA : Listing := mkListing 1 "A" "flat" 100.
Definition houseA : Listing := mkListing 2 "A" "house" 200.
Definition flatB : Listing := mkListing 3 "B" "flat" 150.

Definition scenario : list Listing := [flatA; houseA; flatB].

Definition contextOf (source : option string) (sql db : bool)
  (data : option (list Listing)) : Context :=
  {| query := Some {| param := fun k => if String.eqb k "source" then source else None;
                      all := Some (fun k => if String.eqb k "source" then source else None) |};
     env := Some {| SQL := sql; DB := db; MOCK_DATA := data |} |}.

(** ** Vocabulary of the specification *)

Inductive Direction : Type := Ascending | Descending.

Definition inOrder (d : Direction) (a b : Q) : Prop :=
  match d with
  | Ascending => (a <= b)%Q
  | Descending => (b <= a)%Q
  end.

(** The elements whose key is [k], in the order they have in the list. *)
Definition withKey {A : Type} (key : A -> Q) (k : Q) (l : list A) : list A :=
  List.filter (fun x => Qeq_bool (key x) k) l.

(** [output] is [input] sorted by [key] in direction [d], elements of equal
    key keeping the order they had in [input]. *)
Definition StablySortedBy {A : Type} (d : Direction) (key : A -> Q)
  (input output : list A) : Prop :=
  Permutation output input
  /\ StronglySorted (fun a b => inOrder d (key a) (key b)) output
  /\ forall k, withKey key k output = withKey key k input.


(** A filter stage: the test it keeps listings by, or [None] when the
    stage is skipped. *)
Definition Stage : Type := option (Listing -> bool).

Definition applyStage (l : list Listing) (st : Stage) : list Listing :=
  match st with
  | Some keep => List.filter keep l
  | None => l
  end.

(** Each stage narrows the output of the one before. *)
Definition applyStages (stages : list Stage) (data : list Listing)
  : list Listing :=
  fold_left applyStage stages data.

(** A parameter is specified when it is present and not the empty string. *)
Definition specified (v : option string) : option string :=
  match v with
  | Some s => if JS.isEmpty s then None else Some s
  | None => None
  end.

(** A numeric parameter is specified when, besides, it parses as a number. *)
Definition specifiedNumber (Number : string -> JS.JSNumber) (v : option string)
  : option JS.JSNumber :=
  match specified v with
  | Some s => if JS.isNaN (Number s) then None else Some (Number s)
  | None => None
  end.

(** Exact match on a text field. *)
Definition exactStage (field : Listing -> string) (v : option string) : Stage :=
  option_map (fun s x => String.eqb (field x) s) (specified v).

(** Inclusive bound on a numeric field. *)
Definition boundStage (test : Q -> JS.JSNumber -> bool) (field : Listing -> Q)
  (Number : string -> JS.JSNumber) (v : option string) : Stage :=
  option_map (fun n x => test (field x) n) (specifiedNumber Number v).

(** Case-insensitive substring test of [s] against [text x]. *)
Definition freeText (text : Listing -> string) (s : string) (x : Listing) : bool :=
  JS.includes (JS.toLowerCase (text x)) (JS.toLowerCase s).

(** The concatenation of title, city, address (empty when absent) and
    type. *)
Definition concatenation (x : Listing) : string :=
  (title x ++ city x ++ orEmpty (address x) ++ type x)%string.

(** The six stages as the specification words them: the free-text stage
    tests [q] against the concatenation of the four fields. *)
Definition stagesAsWorded (Number : string -> JS.JSNumber) (f : Filters.t)
  : list Stage :=
  [ option_map (freeText concatenation) (specified (Filters.q f));
    exactStage city (Filters.city f);
    exactStage type (Filters.type f);
    boundStage JS.geNum price Number (Filters.minPrice f);
    boundStage JS.leNum price Number (Filters.maxPrice f);
    boundStage JS.geNum (fun x => orZero (beds x)) Number (Filters.beds f) ].

(** The six stages of the code: the free-text stage tests the trimmed [q]
    against the four fields joined by single spaces, and is skipped when
    nothing is left of [q] after trimming. *)
Definition stages (Number : string -> JS.JSNumber) (f : Filters.t)
  : list Stage :=
  [ option_map (freeText searchText) (specified (option_map JS.trim (Filters.q f)));
    exactStage city (Filters.city f);
    exactStage type (Filters.type f);
    boundStage JS.geNum price Number (Filters.minPrice f);
    boundStage JS.leNum price Number (Filters.maxPrice f);
    boundStage JS.geNum (fun x => orZero (beds x)) Number (Filters.beds f) ].

(** No two listings of the list have the same price. *)
Definition NoPriceTies (l : list Listing) : Prop :=
  forall i j a b,
    l !! i = Some a -> l !! j = Some b -> i <> j -> ~ (price a == price b)%Q.

Definition withSort (k : string) (f : Filters.t) : Filters.t :=
  {| Filters.q := Filters.q f; Filters.city := Filters.city f;
     Filters.type := Filters.type f; Filters.minPrice := Filters.minPrice f;
     Filters.maxPrice := Filters.maxPrice f; Filters.beds := Filters.beds f;
     Filters.sort := Some k |}.

Definition withQ (v : option string) (f : Filters.t) : Filters.t :=
  {| Filters.q := v; Filters.city := Filters.city f;
     Filters.type := Filters.type f; Filters.minPrice := Filters.minPrice f;
     Filters.maxPrice := Filters.maxPrice f; Filters.beds := Filters.beds f;
     Filters.sort := Filters.sort f |}.

(** The keys [filters.sort] is compared with. *)
Definition sortKeys : list string :=
  ["price_asc"; "price_desc"; "area_desc"; "newest"].

Definition loft : Listing :=
  {| id := 7; title := "Loft"; city := "Paris"; type := "flat";
     price := 900; beds := Some 2%Q; area_m2 := Some 55%Q;
     address := None; created_at := Some 1700000000000 |}.

Definition looseQuery : Filters.t := withQ (Some "loft paris") Filters.empty.











(** A database handler that fails, and a world with nothing in it. *)
Definition failingDb : @Selector.Handler Response Thrown unit :=
  fun _ w => (Rejected (Failure "connection refused"), w).

Definition healthyDb : @Selector.Handler Response Thrown unit :=
  fun _ w => (Fulfilled (json (ListingsBody [] "database")), w).

Definition fallbackMessage : string := "DB logic failed, falling back to mock data:".

(** Automatic selection, as the specification describes it: without a
    database binding the mock handler answers; with one, the database
    handler is tried once and, if it fails, the failure is logged and the
    mock handler answers. *)
Definition automaticSelection {R E World : Type} (c : Context)
  (dbLogic mockLogic : @Selector.Handler R E World)
  : @Selector.M E World (Outcome R E) :=
  fun r =>
    if hasDb c then
      match dbLogic c (Selector.world r) with
      | (Fulfilled resp, w) =>
          (Fulfilled resp,
           {| Selector.world := w;
              Selector.events := Selector.events r ++ [Selector.CallDb] |})
      | (Rejected err, w) =>
          let '(o, w') := mockLogic c w in
          (o, {| Selector.world := w';
                 Selector.events :=
                   Selector.events r
                   ++ [Selector.CallDb;
                       Selector.ConsoleError fallbackMessage err;
                       Selector.CallMock] |})
      end
    else
      let '(o, w) := mockLogic c (Selector.world r) in
      (o, {| Selector.world := w;
             Selector.events := Selector.events r ++ [Selector.CallMock] |}).

(** Every array of [h] is in [h'], with the same elements in the same
    order. *)
Definition Unchanged (h h' : gmap nat (list Listing)) : Prop :=
  forall l a, h !! l = Some a -> h' !! l = Some a.

(** In [h'], [r] is an array that did not exist in [h], and holds [a]. *)
Definition FreshArray (h h' : gmap nat (list Listing)) (r : nat)
  (a : list Listing) : Prop :=
  h !! r = None /\ h' !! r = Some a.

(** A view is an array made since [h0], together with the guarantee that
    the arrays of [h0] are as they were. *)
Definition View (h0 h : gmap nat (list Listing)) (r : nat) (a : list Listing)
  : Prop :=
  Unchanged h0 h /\ FreshArray h0 h r a.

(** From [h], the computation [m] ends with a view of [a]. *)
Definition Yields (h0 : gmap nat (list Listing)) (m : Store.ST nat)
  (h : gmap nat (list Listing)) (a : list Listing) : Prop :=
  exists r h', m h = Some (r, h') /\ View h0 h' r a.

(** A store with the scenario's collection at location 0. *)
Definition scenarioStore : gmap nat (list Listing) := <[0%nat := scenario]> ∅.

(** ** The routers

    The handlers the routers build and give to [selectDataSource].  The
    route parameter [c.req.param("id")] is the argument [id].  What the SQL
    client answers to the two queries is not in the sources, and is taken as
    a parameter: rows, or a failure. *)

Section Routers.
Context {World : Type}.
Variable Number : string -> JS.JSNumber.
Variable selectAll : World -> Outcome (list Listing) Thrown * World.
Variable selectById : string -> World -> Outcome (list Listing) Thrown * World.

(** A tagged template on [c2.env.SQL]: without an environment, or without
    a client in it, the call throws a [TypeError]. *)
Definition withSql {A : Type} (c2 : Context)
  (run : World -> Outcome A Thrown * World) (w : World)
  : Outcome A Thrown * World :=
  match env c2 with
  | Some e => if SQL e then run w else (Rejected TypeError, w)
  | None => (Rejected TypeError, w)
  end.

(** [dbLogic] of [listingsRouter.get("/")] *)
Definition listingsDb : @Selector.Handler Response Thrown World :=
  fun c2 w =>
    match withSql c2 selectAll w with
    | (Fulfilled results, w') =>
        (Fulfilled (json (ListingsBody results "database")), w')
    | (Rejected err, w') => (Rejected err, w')
    end.

(** [dbLogic] of [listingsRouter.get("/:id")] *)
Definition detailDb (id : string) : @Selector.Handler Response Thrown World :=
  fun c2 w =>
    match withSql c2 (selectById id) w with
    | (Fulfilled rows, w') =>
        match rows with
        | [] => (Fulfilled (jsonWith (ErrorBody "Listing not found") 404), w')
        | row :: _ => (Fulfilled (json (ListingBody row "database")), w')
        end
    | (Rejected err, w') => (Rejected err, w')
    end.

Definition notImplemented : Response :=
  jsonWith (ErrorBody "Not implemented") 501.

(** [dbLogic] of [listingRelatedRouter.get("/")] *)
Definition relatedDb : @Selector.Handler Response Thrown World :=
  fun c2 w => (Fulfilled notImplemented, w).

(** [const { city, type, sort, q, minPrice, maxPrice, beds } = ...] *)
Definition filtersOf (record : string -> option string) : Filters.t :=
  {| Filters.q := record "q"; Filters.city := record "city";
     Filters.type := record "type"; Filters.minPrice := record "minPrice";
     Filters.maxPrice := record "maxPrice"; Filters.beds := record "beds";
     Filters.sort := record "sort" |}.

(** [listingsRouter.get("/")]: calling [c.req.query] when it is not a
    function, or destructuring a result that is not an object, throws. *)
Definition listingsRoute (c : Context)
  : @Selector.M Thrown World (Outcome Response Thrown) :=
  match query c with
  | Some qf =>
      match all qf with
      | Some record =>
          Selector.selectDataSource c listingsDb
            (listingsMock Number (filtersOf record))
      | None => Selector.ret (Rejected TypeError)
      end
  | None => Selector.ret (Rejected TypeError)
  end.

(** [listingsRouter.get("/:id")] *)
Definition detailRoute (id : string) (c : Context)
  : @Selector.M Thrown World (Outcome Response Thrown) :=
  Selector.selectDataSource c (detailDb id) (detailMock id).

(** [listingRelatedRouter.get("/")] *)
Definition relatedRoute (id : string) (c : Context)
  : @Selector.M Thrown World (Outcome Response Thrown) :=
  Selector.selectDataSource c relatedDb (relatedMock id).

End Routers.

(** ** More vocabulary *)

(** [f'] asks for no more than [f]: each of its filter parameters is the
    one of [f], or absent. *)
Definition Relaxes (f' f : Filters.t) : Prop :=
  (Filters.q f' = Filters.q f \/ Filters.q f' = None)
  /\ (Filters.city f' = Filters.city f \/ Filters.city f' = None)
  /\ (Filters.type f' = Filters.type f \/ Filters.type f' = None)
  /\ (Filters.minPrice f' = Filters.minPrice f \/ Filters.minPrice f' = None)
  /\ (Filters.maxPrice f' = Filters.maxPrice f \/ Filters.maxPrice f' = None)
  /\ (Filters.beds f' = Filters.beds f \/ Filters.beds f' = None).

Definition withCity (v : option string) (f : Filters.t) : Filters.t :=
  {| Filters.q := Filters.q f; Filters.city := v;
     Filters.type := Filters.type f; Filters.minPrice := Filters.minPrice f;
     Filters.maxPrice := Filters.maxPrice f; Filters.beds := Filters.beds f;
     Filters.sort := Filters.sort f |}.

Definition withMinPrice (v : option string) (f : Filters.t) : Filters.t :=
  {| Filters.q := Filters.q f; Filters.city := Filters.city f;
     Filters.type := Filters.type f; Filters.minPrice := v;
     Filters.maxPrice := Filters.maxPrice f; Filters.beds := Filters.beds f;
     Filters.sort := Filters.sort f |}.

Definition withMaxPrice (v : option string) (f : Filters.t) : Filters.t :=
  {| Filters.q := Filters.q f; Filters.city := Filters.city f;
     Filters.type := Filters.type f; Filters.minPrice := Filters.minPrice f;
     Filters.maxPrice := v; Filters.beds := Filters.beds f;
     Filters.sort := Filters.sort f |}.


(** An SQL client for the examples: it knows the scenario's listings. *)
Definition scenarioSelectAll (w : unit) : Outcome (list Listing) Thrown * unit :=
  (Fulfilled scenario, w).

Definition scenarioSelectById (id : string) (w : unit)
  : Outcome (list Listing) Thrown * unit :=
  (Fulfilled (List.filter (idIs (JS.parseInt10 id)) scenario), w).

(** The bindings of a deployment without any database. *)
Definition noBindings : Env := {| SQL := false; DB := false; MOCK_DATA := None |}.

(** A request with the given query parameters. *)
Definition requestWith (params : list (string * string)) (e : Env) : Context :=
  let lookup := fun k =>
    match List.find (fun kv => String.eqb (fst kv) k) params with
    | Some kv => Some (snd kv)
    | None => None
    end in
  {| query := Some {| param := lookup; all := Some lookup |}; env := Some e |}.

(** * Properties *)

(** ** Facts about the built-ins *)

(** *** The stable sort *)

Section SortFacts.
Context {A : Type}.
Variable cmp : A -> A -> Q.

Lemma insert_Permutation x l : Permutation (JS.insert cmp x l) (x :: l).
Proof.
  induction l as [|y l IH]; simpl; [reflexivity|].
  destruct (Qle_bool (cmp x y) 0); [reflexivity|].
  rewrite IH. apply perm_swap.
Qed.

Lemma sort_Permutation l : Permutation (JS.sort cmp l) l.
Proof.
  induction l as [|x l IH]; simpl; [reflexivity|].
  rewrite insert_Permutation. now rewrite IH.
Qed.

Variable key : A -> Q.
Hypothesis cmp_key : forall a b, (cmp a b <= 0)%Q <-> (key a <= key b)%Q.

Lemma insert_sorted x l :
  StronglySorted (fun a b => key a <= key b)%Q l ->
  StronglySorted (fun a b => key a <= key b)%Q (JS.insert cmp x l).
Proof.
  induction 1 as [|y l Hs IH Hy]; simpl.
  - repeat constructor.
  - destruct (Qle_bool (cmp x y) 0) eqn:Hc.
    + apply Qle_bool_iff, cmp_key in Hc.
      constructor; [now constructor|].
      constructor; [exact Hc|].
      eapply Forall_impl; [exact Hy|].
      intros z Hz. simpl in *. lra.
    + assert (Hlt : ~ (key x <= key y)%Q).
      { intros H. apply cmp_key, Qle_bool_iff in H. congruence. }
      constructor; [exact IH|].
      rewrite insert_Permutation. constructor; [|exact Hy].
      lra.
Qed.

Lemma sort_sorted l :
  StronglySorted (fun a b => key a <= key b)%Q (JS.sort cmp l).
Proof.
  induction l as [|x l IH]; simpl; [constructor|]. now apply insert_sorted.
Qed.

Lemma insert_withKey k x l :
  withKey key k (JS.insert cmp x l) = withKey key k (x :: l).
Proof.
  induction l as [|y l IH]; simpl; [reflexivity|].
  destruct (Qle_bool (cmp x y) 0) eqn:Hc; [reflexivity|].
  assert (Hlt : ~ (key x <= key y)%Q).
  { intros H. apply cmp_key, Qle_bool_iff in H. congruence. }
  unfold withKey in *. simpl in *. rewrite IH.
  destruct (Qeq_bool (key x) k) eqn:Hx, (Qeq_bool (key y) k) eqn:Hy;
    try reflexivity.
  apply Qeq_bool_iff in Hx, Hy. exfalso. apply Hlt. lra.
Qed.

Lemma sort_withKey k l : withKey key k (JS.sort cmp l) = withKey key k l.
Proof.
  induction l as [|x l IH]; simpl; [reflexivity|].
  rewrite insert_withKey. unfold withKey in *. simpl. now rewrite IH.
Qed.

(** A comparator that orders by [key] sorts by it, stably. *)
Lemma sort_ascending l : StablySortedBy Ascending key l (JS.sort cmp l).
Proof.
  split; [apply sort_Permutation|]. split; [apply sort_sorted|].
  intros k. apply sort_withKey.
Qed.

End SortFacts.

Lemma StronglySorted_weaken {A : Type} (R R' : A -> A -> Prop) l :
  (forall a b, R a b -> R' a b) -> StronglySorted R l -> StronglySorted R' l.
Proof.
  intros HR. induction 1 as [|x l Hs IH Hx]; constructor; [exact IH|].
  eapply Forall_impl; [exact Hx|]. intros; now apply HR.
Qed.

Lemma withKey_opp {A : Type} (key : A -> Q) k l :
  withKey (fun x => - key x)%Q (- k)%Q l = withKey key k l.
Proof.
  unfold withKey. apply List.filter_ext. intros x.
  apply eq_true_iff_eq. rewrite !Qeq_bool_iff. split; intros H; lra.
Qed.

(** A comparator [key b - key a] sorts by [key], descending and stably. *)
Lemma sort_descending {A : Type} (cmp : A -> A -> Q) (key : A -> Q) l :
  (forall a b, (cmp a b <= 0)%Q <-> (key b <= key a)%Q) ->
  StablySortedBy Descending key l (JS.sort cmp l).
Proof.
  intros Hcmp.
  destruct (sort_ascending cmp (fun x => - key x)%Q) with (l := l)
    as (Hp & Hs & Hk).
  { intros a b. rewrite Hcmp. split; intros H; lra. }
  split; [exact Hp|]. split.
  - eapply StronglySorted_weaken; [|exact Hs]. simpl. intros a b H. lra.
  - intros k. rewrite <- (withKey_opp key k l), <- (withKey_opp key k (JS.sort cmp l)).
    apply Hk.
Qed.

Lemma inOrder_antisym d a b : inOrder d a b -> inOrder d b a -> (a == b)%Q.
Proof. destruct d; simpl; intros; lra. Qed.

Lemma withKey_cons_same {A : Type} (key : A -> Q) x l :
  withKey key (key x) (x :: l) = x :: withKey key (key x) l.
Proof.
  unfold withKey. simpl.
  assert (H : Qeq_bool (key x) (key x) = true)
    by (apply Qeq_bool_iff; reflexivity).
  now rewrite H.
Qed.

Lemma withKey_In {A : Type} (key : A -> Q) k x l :
  In x (withKey key k l) -> In x l.
Proof. unfold withKey. now intros [H _]%List.filter_In. Qed.

Lemma sorted_by_key_unique {A : Type} d (key : A -> Q) (l1 l2 : list A) :
  StronglySorted (fun a b => inOrder d (key a) (key b)) l1 ->
  StronglySorted (fun a b => inOrder d (key a) (key b)) l2 ->
  (forall k, withKey key k l1 = withKey key k l2) ->
  l1 = l2.
Proof.
  intros Hs1. revert l2. induction Hs1 as [|x l1 Hs1 IH Hx]; intros l2 Hs2 Hk.
  - destruct l2 as [|y l2]; [reflexivity|].
    specialize (Hk (key y)). rewrite withKey_cons_same in Hk. discriminate.
  - destruct l2 as [|y l2].
    { specialize (Hk (key x)). rewrite withKey_cons_same in Hk. discriminate. }
    apply StronglySorted_cons in Hs2 as [Hy Hs2].
    rewrite Forall_forall in Hx, Hy.
    assert (Hxy : inOrder d (key x) (key y)).
    { assert (Hin : In y (x :: l1)).
      { apply (withKey_In key (key y)). rewrite Hk, withKey_cons_same. now left. }
      destruct Hin as [->|Hin]; [destruct d; simpl; lra|].
      apply Hx. now apply list_elem_of_In. }
    assert (Hyx : inOrder d (key y) (key x)).
    { assert (Hin : In x (y :: l2)).
      { apply (withKey_In key (key x)). rewrite <- Hk, withKey_cons_same. now left. }
      destruct Hin as [->|Hin]; [destruct d; simpl; lra|].
      apply Hy. now apply list_elem_of_In. }
    assert (Heq : (key y == key x)%Q) by now apply inOrder_antisym with d.
    assert (x = y).
    { specialize (Hk (key x)). rewrite withKey_cons_same in Hk.
      unfold withKey in Hk. simpl in Hk.
      apply Qeq_bool_iff in Heq. rewrite Heq in Hk. congruence. }
    subst y. f_equal. apply IH; [exact Hs2|].
    intros k. specialize (Hk k). unfold withKey in *. simpl in Hk.
    destruct (Qeq_bool (key x) k); congruence.
Qed.

(** Two stable sorts of the same list by the same key are equal: the order
    [JS.sort] computes is the only one that is sorted and stable. *)
Lemma StablySortedBy_unique {A : Type} d (key : A -> Q) (input o1 o2 : list A) :
  StablySortedBy d key input o1 -> StablySortedBy d key input o2 -> o1 = o2.
Proof.
  intros (_ & Hs1 & Hk1) (_ & Hs2 & Hk2).
  apply (sorted_by_key_unique d key); [exact Hs1 | exact Hs2|].
  intros k. now rewrite Hk1, Hk2.
Qed.

(** *** Strings *)

Lemma app_String c a b : (String c a ++ b)%string = String c (a ++ b).
Proof. reflexivity. Qed.

Lemma prefix_spec q h :
  String.prefix q h = true <-> exists b, h = (q ++ b)%string.
Proof.
  revert h. induction q as [|c q IH]; intros h.
  - split; [intros _; now exists h | intros _; now destruct h].
  - destruct h as [|d h]; simpl.
    + split; [discriminate | intros [b Hb]; discriminate].
    + setoid_rewrite app_String.
      destruct (Ascii.ascii_dec c d) as [->|Hne].
      * rewrite IH. split; intros [b Hb]; exists b; congruence.
      * split; [discriminate | intros [b Hb]; congruence].
Qed.

(** [includes] is the substring test. *)
Lemma includes_spec h q :
  JS.includes h q = true <-> exists a b, h = (a ++ q ++ b)%string.
Proof.
  induction h as [|c h IH].
  - cbn [JS.includes]. rewrite orb_false_r, prefix_spec. split.
    + intros [b Hb]. now exists EmptyString, b.
    + intros (a & b & Hab). destruct a; [now exists b | discriminate].
  - cbn [JS.includes]. rewrite orb_true_iff, prefix_spec, IH. split.
    + intros [[b Hb] | (a & b & Hab)].
      * now exists EmptyString, b.
      * exists (String c a), b. rewrite app_String. now rewrite Hab.
    + intros (a & b & Hab). destruct a as [|d a].
      * left. now exists b.
      * right. exists a, b. rewrite app_String in Hab. congruence.
Qed.









(** *** parseInt *)

Lemma parseInt10_examples :
  JS.parseInt10 "abc" = None /\ JS.parseInt10 "" = None
  /\ JS.parseInt10 "-" = None /\ JS.parseInt10 "42" = Some 42
  /\ JS.parseInt10 " 12abc" = Some 12 /\ JS.parseInt10 "1.9" = Some 1.
Proof. repeat split; reflexivity. Qed.




Lemma leadingDigits_nil s :
  JS.leadingDigits s = [] <->
  match s with
  | EmptyString => True
  | String c _ => JS.isDigit c = false
  end.
Proof.
  destruct s as [|c s]; simpl; [tauto|].
  destruct (JS.isDigit c); split; intros H; try discriminate; reflexivity.
Qed.



(** ** The source selector *)

Section SelectorFacts.
Context {R E World : Type}.
Implicit Types (dbLogic mockLogic : @Selector.Handler R E World).
Implicit Types (r : @Selector.Run E World).

Import Selector.

(** What [await] does to a run. *)
Lemma await_run ev (h : @Handler R E World) c r :
  await ev h c r
  = (fst (h c (world r)),
     {| world := snd (h c (world r)); events := events r ++ [ev] |}).
Proof. unfold await, bind, emit. simpl. now destruct (h c (world r)). Qed.

Lemma select_mock c dbLogic mockLogic r :
  sourceParam c = Some "mock" ->
  selectDataSource c dbLogic mockLogic r = await CallMock mockLogic c r.
Proof. intros H. unfold selectDataSource. now rewrite H. Qed.

Lemma select_db c dbLogic mockLogic r :
  sourceParam c = Some "db" ->
  selectDataSource c dbLogic mockLogic r = await CallDb dbLogic c r.
Proof. intros H. unfold selectDataSource. now rewrite H. Qed.

Lemma isString_false v s : v <> Some s -> isString v s = false.
Proof.
  destruct v as [s'|]; simpl; [|reflexivity].
  intros H. apply String.eqb_neq. congruence.
Qed.

(** Without an override and with a database binding, the database
    handler runs first; the mock handler runs after it only if it
    failed. *)
Lemma select_automatic_db c dbLogic mockLogic r :
  sourceParam c <> Some "mock" -> sourceParam c <> Some "db" ->
  hasDb c = true ->
  selectDataSource c dbLogic mockLogic r
  = match fst (dbLogic c (world r)) with
    | Fulfilled resp =>
        (Fulfilled resp,
         {| world := snd (dbLogic c (world r));
            events := events r ++ [CallDb] |})
    | Rejected err =>
        (fst (mockLogic c (snd (dbLogic c (world r)))),
         {| world := snd (mockLogic c (snd (dbLogic c (world r))));
            events := events r
                      ++ [CallDb; ConsoleError fallbackMessage err; CallMock] |})
    end.
Proof.
  intros H1 H2 H3. unfold selectDataSource.
  rewrite (isString_false _ _ H1), (isString_false _ _ H2), H3. simpl.
  unfold bind at 1. rewrite await_run.
  destruct (dbLogic c (world r)) as [[resp|err] w]; simpl; [reflexivity|].
  unfold console_error, bind, emit, await, bind, emit. simpl.
  destruct (mockLogic c w) as [o w']. simpl.
  now rewrite <- !app_assoc.
Qed.

Lemma select_automatic_mock c dbLogic mockLogic r :
  sourceParam c <> Some "mock" -> sourceParam c <> Some "db" ->
  hasDb c = false ->
  selectDataSource c dbLogic mockLogic r = await CallMock mockLogic c r.
Proof.
  intros H1 H2 H3. unfold selectDataSource.
  now rewrite (isString_false _ _ H1), (isString_false _ _ H2), H3.
Qed.

End SelectorFacts.

Lemma count_app {E : Type} (p : @Selector.Event E -> bool) l l' :
  Selector.count p (l ++ l') = (Selector.count p l + Selector.count p l')%nat.
Proof. unfold Selector.count. now rewrite List.filter_app, length_app. Qed.

(** The repository's mock handlers answer with source "mock", or with the
    not-found response. *)
Lemma RepositoryMock_source {World : Type}
  (mockLogic : @Selector.Handler Response Thrown World) c w resp :
  RepositoryMock mockLogic ->
  fst (mockLogic c w) = Fulfilled resp ->
  sourceOf resp = Some "mock" \/ resp = notFound.
Proof.
  intros [Number f | listingId | listingId]; simpl.
  - unfold getListingsList. destruct (mockData c); [|discriminate].
    intros [= <-]. now left.
  - unfold getListingDetail. destruct (mockData c) as [data|]; [|discriminate].
    destruct (List.find _ data); intros [= <-]; [now left | now right].
  - unfold getRelatedListingData. destruct (mockData c) as [data|]; [|discriminate].
    destruct (List.find _ data); intros [= <-]; [now left | now right].
Qed.

(** C1, as worded, fails in one point: with a database binding, no
    override and a database handler that throws, a request for the detail
    of a listing that does not exist is answered by the mock handler's
    not-found response, status 404, which carries no [source] at all. *)
Lemma C1_counterexample :
  let c := contextOf None false true (Some scenario) in
  sourceParam c = None /\ hasDb c = true
  /\ failingDb c tt = (Rejected (Failure "connection refused"), tt)
  /\ fst (Selector.selectDataSource c failingDb (detailMock "999")
            (Selector.start tt))
     = Fulfilled notFound
  /\ sourceOf notFound = None /\ status notFound = 404.
Proof. repeat split; reflexivity. Qed.

(** C1 (amended): for a request with no source override and a database
    binding, if the database handler throws or rejects, [selectDataSource]
    catches the error, writes exactly one diagnostic line, calls the mock
    handler exactly once and answers with what the mock handler answers;
    the database handler is called once and its error does not reach the
    caller.  The answer of a mock handler of the repository carries source
    "mock" unless it is the not-found response. *)
Theorem C1_fallback {World : Type} (c : Context)
  (dbLogic mockLogic : @Selector.Handler Response Thrown World)
  (r : @Selector.Run Thrown World) (err : Thrown) (w : World) :
  sourceParam c <> Some "mock" -> sourceParam c <> Some "db" ->
  hasDb c = true ->
  dbLogic c (Selector.world r) = (Rejected err, w) ->
  let result := Selector.selectDataSource c dbLogic mockLogic r in
  let log := Selector.events (snd result) in
  fst result = fst (mockLogic c w)
  /\ Selector.world (snd result) = snd (mockLogic c w)
  /\ log = Selector.events r
           ++ [Selector.CallDb; Selector.ConsoleError fallbackMessage err;
               Selector.CallMock]
  /\ Selector.count Selector.isCallDb log
     = S (Selector.count Selector.isCallDb (Selector.events r))
  /\ Selector.count Selector.isConsoleError log
     = S (Selector.count Selector.isConsoleError (Selector.events r))
  /\ Selector.count Selector.isCallMock log
     = S (Selector.count Selector.isCallMock (Selector.events r))
  /\ (RepositoryMock mockLogic ->
      forall resp, fst result = Fulfilled resp ->
                   sourceOf resp = Some "mock" \/ resp = notFound).
Proof.
  intros H1 H2 H3 Hdb result log. subst log result.
  rewrite (select_automatic_db c dbLogic mockLogic r H1 H2 H3), Hdb. simpl.
  split; [reflexivity|]. split; [reflexivity|]. split; [reflexivity|].
  split; [rewrite count_app; unfold Selector.count; simpl; lia|].
  split; [rewrite count_app; unfold Selector.count; simpl; lia|].
  split; [rewrite count_app; unfold Selector.count; simpl; lia|].
  intros Hrepo resp Hresp. eapply RepositoryMock_source; eassumption.
Qed.

Lemma C1_fallback_witness :
  Selector.selectDataSource (contextOf None false true (Some scenario))
    failingDb (listingsMock decimalNumber Filters.empty) (Selector.start tt)
  = (Fulfilled (json (ListingsBody scenario "mock")),
     {| Selector.world := tt;
        Selector.events :=
          [Selector.CallDb;
           Selector.ConsoleError fallbackMessage (Failure "connection refused");
           Selector.CallMock] |}).
Proof.
  destruct (C1_fallback (contextOf None false true (Some scenario))
              failingDb (listingsMock decimalNumber Filters.empty)
              (Selector.start tt) (Failure "connection refused") tt)
    as (_ & _ & _); [discriminate | discriminate | reflexivity | reflexivity |].
  reflexivity.
Defined.

(** C2: with the source parameter "mock" only the mock handler is called,
    whatever the bindings; with "db" only the database handler is called
    and nothing is caught, so that its failure is the caller's; any other
    value is ignored and the selection is the automatic one. *)
Theorem C2_source_override {R E World : Type} (c : Context)
  (dbLogic mockLogic : @Selector.Handler R E World)
  (r : @Selector.Run E World) :
  (sourceParam c = Some "mock" ->
   Selector.selectDataSource c dbLogic mockLogic r
   = (fst (mockLogic c (Selector.world r)),
      {| Selector.world := snd (mockLogic c (Selector.world r));
         Selector.events := Selector.events r ++ [Selector.CallMock] |}))
  /\ (sourceParam c = Some "db" ->
      Selector.selectDataSource c dbLogic mockLogic r
      = (fst (dbLogic c (Selector.world r)),
         {| Selector.world := snd (dbLogic c (Selector.world r));
            Selector.events := Selector.events r ++ [Selector.CallDb] |})
      /\ forall err w,
           dbLogic c (Selector.world r) = (Rejected err, w) ->
           Selector.selectDataSource c dbLogic mockLogic r
           = (Rejected err,
              {| Selector.world := w;
                 Selector.events := Selector.events r ++ [Selector.CallDb] |}))
  /\ (sourceParam c <> Some "mock" -> sourceParam c <> Some "db" ->
      Selector.selectDataSource c dbLogic mockLogic r
      = automaticSelection c dbLogic mockLogic r).
Proof.
  split; [|split].
  - intros H. now rewrite select_mock, await_run.
  - intros H. rewrite select_db, await_run by exact H.
    split; [reflexivity|]. intros err w Hdb. now rewrite Hdb.
  - intros H1 H2. unfold automaticSelection.
    destruct (hasDb c) eqn:H3.
    + rewrite select_automatic_db by assumption.
      destruct (dbLogic c (Selector.world r)) as [[resp|err] w]; simpl;
        [reflexivity|]. now destruct (mockLogic c w).
    + rewrite select_automatic_mock, await_run by assumption.
      now destruct (mockLogic c (Selector.world r)).
Qed.

Lemma C2_source_override_witness :
  Selector.selectDataSource (contextOf (Some "db") true true (Some scenario))
    failingDb (listingsMock decimalNumber Filters.empty) (Selector.start tt)
  = (Rejected (Failure "connection refused"),
     {| Selector.world := tt; Selector.events := [Selector.CallDb] |})
  /\ Selector.selectDataSource (contextOf (Some "mock") true true (Some scenario))
       healthyDb (listingsMock decimalNumber Filters.empty) (Selector.start tt)
     = (Fulfilled (json (ListingsBody scenario "mock")),
        {| Selector.world := tt; Selector.events := [Selector.CallMock] |})
  /\ Selector.selectDataSource (contextOf (Some "MOCK") true true (Some scenario))
       healthyDb (listingsMock decimalNumber Filters.empty) (Selector.start tt)
     = (Fulfilled (json (ListingsBody [] "database")),
        {| Selector.world := tt; Selector.events := [Selector.CallDb] |}).
Proof.
  split; [|split].
  - destruct (proj1 (proj2 (C2_source_override
                           (contextOf (Some "db") true true (Some scenario))
                           failingDb (listingsMock decimalNumber Filters.empty)
                           (Selector.start tt))) eq_refl) as [H _].
    exact H.
  - reflexivity.
  - reflexivity.
Defined.

(** With the Hyperdrive binding the middleware sets no mock data: when the
    database handler fails, the mock handler that takes over throws, and
    the selector's answer is that rejection. *)
Example fallback_without_mock_data :
  let c := {| query := None;
              env := Some (middleware true false scenario
                             {| SQL := false; DB := false; MOCK_DATA := None |}) |} in
  hasDb c = true
  /\ fst (Selector.selectDataSource c failingDb
            (listingsMock decimalNumber Filters.empty) (Selector.start tt))
     = Rejected TypeError.
Proof. split; reflexivity. Qed.

(** ** The filter pipeline of [getListingsList] *)

Lemma isEmpty_toLowerCase s : JS.isEmpty (JS.toLowerCase s) = JS.isEmpty s.
Proof. now destruct s. Qed.

Section FilterStages.
Variable Number : string -> JS.JSNumber.

Lemma freeText_stage q l :
  (if JS.truthy (JS.toLowerCase (JS.trim (orEmpty q))) then
     List.filter
       (fun x => JS.includes (JS.toLowerCase (searchText x))
                   (JS.toLowerCase (JS.trim (orEmpty q)))) l
   else l)
  = applyStage l
      (option_map (freeText searchText) (specified (option_map JS.trim q))).
Proof.
  unfold JS.truthy. rewrite isEmpty_toLowerCase.
  destruct q as [s|]; simpl; [|reflexivity].
  now destruct (JS.isEmpty (JS.trim s)).
Qed.

Lemma exact_stage (field : Listing -> string) v l :
  match v with
  | Some s =>
      if JS.truthy s then List.filter (fun x => String.eqb (field x) s) l else l
  | None => l
  end = applyStage l (exactStage field v).
Proof.
  unfold exactStage, JS.truthy. destruct v as [s|]; simpl; [|reflexivity].
  now destruct (JS.isEmpty s).
Qed.

Lemma bound_stage test (field : Listing -> Q) v l :
  match numericFilter Number v with
  | Some n =>
      if negb (JS.isNaN n) then List.filter (fun x => test (field x) n) l else l
  | None => l
  end = applyStage l (boundStage test field Number v).
Proof.
  unfold boundStage, specifiedNumber, numericFilter.
  destruct v as [s|]; simpl; [|reflexivity].
  destruct (JS.isEmpty s); simpl; [reflexivity|].
  now destruct (JS.isNaN (Number s)).
Qed.

(** The code's pipeline is the six stages, in their order. *)
Lemma filterStages_stages f data :
  filterStages Number f data = applyStages (stages Number f) data.
Proof.
  unfold filterStages, searchTerm, applyStages, stages. cbv zeta.
  cbn [fold_left].
  rewrite <- (bound_stage JS.geNum (fun x => orZero (beds x))).
  rewrite <- (bound_stage JS.leNum price), <- (bound_stage JS.geNum price).
  rewrite <- (exact_stage type), <- (exact_stage city).
  rewrite <- freeText_stage. reflexivity.
Qed.

(** Every listing kept passes every stage that is not skipped, and the
    listings kept stay in the order of the collection. *)
Lemma applyStages_filter sts data :
  applyStages sts data
  = List.filter
      (fun x => forallb (fun st : Stage =>
                  match st with Some keep => keep x | None => true end) sts)
      data.
Proof.
  unfold applyStages. revert data.
  induction sts as [|st sts IH]; intros data; cbn [fold_left forallb].
  - induction data as [|x data IHd]; simpl; [reflexivity | now rewrite <- IHd].
  - rewrite IH. destruct st as [keep|]; simpl.
    + induction data as [|x data IHd]; simpl; [reflexivity|].
      destruct (keep x); simpl; [|exact IHd].
      destruct (forallb _ sts); [now rewrite IHd | exact IHd].
    + reflexivity.
Qed.

End FilterStages.

(** C3, as worded, fails: the query "loft paris" finds the listing titled
    "Loft" in the city "Paris", because the code joins the fields with
    spaces; in the concatenation "LoftParisflat" there is no such
    substring. *)
Lemma C3_counterexample :
  filterStages decimalNumber looseQuery [loft] = [loft]
  /\ applyStages (stagesAsWorded decimalNumber looseQuery) [loft] = [].
Proof. split; reflexivity. Qed.

(** C3 (amended): for every collection and parameter bag, the listings
    [getListingsList] keeps are those of the six stages applied in the order
    q, city, type, minPrice, maxPrice, beds: q, trimmed, is a case-insensitive
    substring test against title, city, address (empty when absent) and type
    joined by single spaces; city and type are exact matches; minPrice and
    maxPrice are inclusive bounds on price; beds is an inclusive lower bound
    with a missing [beds] read as 0; a stage is skipped when its parameter is
    absent, empty (for q: empty once trimmed) or, for the numeric ones, not a
    number.  The listings kept are those of the collection that pass every
    stage not skipped, in the order of the collection.  The call never
    throws: it answers with the list, source "mock". *)
Theorem C3_filter_pipeline (Number : string -> JS.JSNumber) (c : Context)
  (f : Filters.t) (data : list Listing) :
  mockData c = Some data ->
  filterStages Number f data = applyStages (stages Number f) data
  /\ filterStages Number f data
     = List.filter
         (fun x => forallb (fun st : Stage =>
                     match st with Some keep => keep x | None => true end)
                     (stages Number f))
         data
  /\ (forall s x, freeText searchText s x = true
        <-> exists a b, JS.toLowerCase (searchText x)
                        = (a ++ JS.toLowerCase s ++ b)%string)
  /\ getListingsList Number c f
     = Fulfilled (json (ListingsBody
         (sortStage (Filters.sort f) (applyStages (stages Number f) data)) "mock")).
Proof.
  intros Hdata. split; [apply filterStages_stages|]. split; [|split].
  - rewrite filterStages_stages. apply applyStages_filter.
  - intros s x. apply includes_spec.
  - unfold getListingsList, searchResults. rewrite Hdata.
    now rewrite filterStages_stages.
Qed.

Lemma C3_filter_pipeline_witness :
  filterStages decimalNumber looseQuery [loft]
  = applyStages (stages decimalNumber looseQuery) [loft]
  /\ getListingsList decimalNumber (contextOf None false false (Some [loft])) looseQuery
     = Fulfilled (json (ListingsBody [loft] "mock")).
Proof.
  destruct (C3_filter_pipeline decimalNumber
              (contextOf None false false (Some [loft])) looseQuery [loft])
    as (H1 & _ & _ & H3); [reflexivity|].
  split; [exact H1 | exact H3].
Defined.

(** ** The sort stage of [getListingsList] *)

Lemma sortStage_other k results :
  ~ In k sortKeys -> sortStage (Some k) results = results.
Proof.
  intros Hk. unfold sortStage.
  destruct (String.eqb_spec k "price_asc") as [->|_];
    [exfalso; apply Hk; simpl; tauto|].
  destruct (String.eqb_spec k "price_desc") as [->|_];
    [exfalso; apply Hk; simpl; tauto|].
  destruct (String.eqb_spec k "area_desc") as [->|_];
    [exfalso; apply Hk; simpl; tauto|].
  destruct (String.eqb_spec k "newest") as [->|_];
    [exfalso; apply Hk; simpl; tauto|].
  reflexivity.
Qed.

(** The two price sorts, for any list. *)
Lemma price_sorts l :
  StablySortedBy Ascending price l (JS.sort byPriceAsc l)
  /\ StablySortedBy Descending price l (JS.sort byPriceDesc l).
Proof.
  split.
  - apply sort_ascending. intros a b. unfold byPriceAsc. split; intros H; lra.
  - apply sort_descending. intros a b. unfold byPriceDesc. split; intros H; lra.
Qed.

(** C4: the sort stage orders the filtered list by the sort key:
    [price_asc] ascending by price, [price_desc] descending by price,
    [area_desc] descending by [area_m2] with a missing area read as 0,
    [newest] descending by [created_at] with a missing date read as the
    epoch; each of these sorts is stable; with no sort key, or one that is
    not recognised, the list stays in the order the filters left it in. *)
Theorem C4_sort_stage (Number : string -> JS.JSNumber) (data : list Listing)
  (f : Filters.t) (results : list Listing) :
  searchResults Number data f
  = sortStage (Filters.sort f) (filterStages Number f data)
  /\ StablySortedBy Ascending price results (sortStage (Some "price_asc") results)
  /\ StablySortedBy Descending price results (sortStage (Some "price_desc") results)
  /\ StablySortedBy Descending
       (fun x => match area_m2 x with Some a => a | None => 0%Q end)
       results (sortStage (Some "area_desc") results)
  /\ StablySortedBy Descending
       (fun x => inject_Z (match created_at x with Some t => t | None => 0 end))
       results (sortStage (Some "newest") results)
  /\ sortStage None results = results
  /\ (forall k, ~ In k sortKeys -> sortStage (Some k) results = results).
Proof.
  split; [reflexivity|].
  split.
  { apply sort_ascending. intros a b. unfold byPriceAsc. split; intros H; lra. }
  split.
  { apply sort_descending. intros a b. unfold byPriceDesc. split; intros H; lra. }
  split.
  { apply (sort_descending byAreaDesc (fun x => orZero (area_m2 x))).
    intros a b. unfold byAreaDesc. split; intros H; lra. }
  split.
  { apply (sort_descending byNewest (fun x => inject_Z (timeOf x))).
    intros a b. unfold byNewest. split; intros H; lra. }
  split; [reflexivity|].
  intros k. apply sortStage_other.
Qed.

Lemma C4_sort_stage_witness :
  sortStage (Some "price_desc") scenario = [houseA; flatB; flatA]
  /\ StablySortedBy Descending price scenario (sortStage (Some "price_desc") scenario)
  /\ sortStage (Some "cheapest") scenario = scenario.
Proof.
  destruct (C4_sort_stage decimalNumber scenario Filters.empty scenario)
    as (_ & _ & Hdesc & _ & _ & _ & Hother).
  split; [reflexivity|]. split; [exact Hdesc|].
  apply Hother. simpl. intros [H|[H|[H|[H|[]]]]]; discriminate.
Defined.

(** ** Related listings: the lookup *)

Lemma find_None_Forall {A : Type} (p : A -> bool) l :
  List.find p l = None <-> Forall (fun x => p x = false) l.
Proof.
  induction l as [|x l IH]; simpl.
  - split; [constructor | reflexivity].
  - destruct (p x) eqn:Hx.
    + split; [discriminate | intros H; inversion H; congruence].
    + rewrite IH. split; [now constructor | now inversion 1].
Qed.

(** A listing that [find] returns has the id that was asked for. *)
Lemma found_id listingId data listing :
  List.find (idIs (JS.parseInt10 listingId)) data = Some listing ->
  JS.parseInt10 listingId = Some (id listing).
Proof.
  intros [_ H]%find_some. unfold idIs in H.
  destruct (JS.parseInt10 listingId) as [n|]; [|discriminate].
  apply Z.eqb_eq in H. now rewrite H.
Qed.



(** ** Related listings: the three lists *)






(** ** Statistics: counting into an object *)






















(** ** Statistics: the entries and their sort *)













(** ** No mutation of the collection *)

Section StoreFacts.
Import Store.
Local Open Scope store_scope.
Implicit Types (h : Heap) (r l : Loc) (a : list Listing).

Lemma Unchanged_refl h : Unchanged h h.
Proof. now intros l a. Qed.

Lemma Unchanged_trans h1 h2 h3 :
  Unchanged h1 h2 -> Unchanged h2 h3 -> Unchanged h1 h3.
Proof. intros H1 H2 l a Hl. now apply H2, H1. Qed.

Lemma fresh_None h : h !! fresh (dom h) = None.
Proof. apply not_elem_of_dom, is_fresh. Qed.

(** An allocation changes no array. *)
Lemma Unchanged_alloc h a : Unchanged h (<[fresh (dom h) := a]> h).
Proof.
  intros l x Hl. rewrite lookup_insert_ne; [exact Hl|].
  intros <-. now rewrite fresh_None in Hl.
Qed.

(** Rewriting an array that [h0] does not have changes no array of
    [h0]. *)
Lemma Unchanged_write h0 h r a :
  Unchanged h0 h -> h0 !! r = None -> Unchanged h0 (<[r := a]> h).
Proof.
  intros H Hr l x Hl. rewrite lookup_insert_ne; [now apply H|].
  intros <-. congruence.
Qed.

Lemma run_read h l a : h !! l = Some a -> read l h = Some (a, h).
Proof. intros H. unfold read. now rewrite H. Qed.

Lemma run_filter p h l a :
  h !! l = Some a ->
  filter p l h
  = Some (fresh (dom h), <[fresh (dom h) := List.filter p a]> h).
Proof. intros H. unfold filter, bind. now rewrite (run_read _ _ _ H). Qed.

Lemma run_slice n h l a :
  h !! l = Some a ->
  slice n l h = Some (fresh (dom h), <[fresh (dom h) := firstn n a]> h).
Proof. intros H. unfold slice, bind. now rewrite (run_read _ _ _ H). Qed.

Lemma run_spread h l a :
  h !! l = Some a ->
  spread l h = Some (fresh (dom h), <[fresh (dom h) := a]> h).
Proof. intros H. unfold spread, bind. now rewrite (run_read _ _ _ H). Qed.

Lemma run_sort cmp h l a :
  h !! l = Some a -> sort cmp l h = Some (l, <[l := JS.sort cmp a]> h).
Proof. intros H. unfold sort, bind. now rewrite (run_read _ _ _ H). Qed.

Lemma View_alloc h0 h a :
  Unchanged h0 h ->
  View h0 (<[fresh (dom h) := a]> h) (fresh (dom h)) a.
Proof.
  intros H. split; [|split].
  - eapply Unchanged_trans; [exact H | apply Unchanged_alloc].
  - destruct (h0 !! fresh (dom h)) as [x|] eqn:Hx; [|reflexivity].
    apply H in Hx. now rewrite fresh_None in Hx.
  - apply lookup_insert_eq.
Qed.

(** A stage that filters, or is skipped. *)
Lemma optional_filter (b : bool) p h0 h r a :
  View h0 h r a ->
  exists r' h',
    (if b then filter p r else ret r) h = Some (r', h')
    /\ View h0 h' r' (if b then List.filter p a else a).
Proof.
  intros Hv. destruct b.
  - destruct Hv as (Hu & _ & Hr). rewrite (run_filter _ _ _ _ Hr).
    eexists _, _. split; [reflexivity|]. now apply View_alloc.
  - exists r, h. now split.
Qed.

(** A sort of a view, in place. *)
Lemma sort_view cmp h0 h r a :
  View h0 h r a ->
  sort cmp r h = Some (r, <[r := JS.sort cmp a]> h)
  /\ View h0 (<[r := JS.sort cmp a]> h) r (JS.sort cmp a).
Proof.
  intros (Hu & Hfresh & Hr). split; [now apply run_sort|].
  split; [now apply Unchanged_write|]. split; [exact Hfresh|].
  apply lookup_insert_eq.
Qed.

Lemma Yields_bind h0 m (k : Loc -> ST Loc) h a b :
  Yields h0 m h a ->
  (forall r' h', View h0 h' r' a -> Yields h0 (k r') h' b) ->
  Yields h0 (bind m k) h b.
Proof.
  intros (r' & h' & Hm & Hv) Hk. unfold Yields, bind. rewrite Hm.
  now apply Hk.
Qed.

Lemma Yields_if (b : bool) p h0 h r a :
  View h0 h r a ->
  Yields h0 (if b then filter p r else ret r) h
    (if b then List.filter p a else a).
Proof. apply optional_filter. Qed.

Lemma Yields_match {T : Type} (v : option T) (cond : T -> bool)
  (p : T -> Listing -> bool) h0 h r a :
  View h0 h r a ->
  Yields h0
    match v with
    | Some s => if cond s then filter (p s) r else ret r
    | None => ret r
    end h
    match v with
    | Some s => if cond s then List.filter (p s) a else a
    | None => a
    end.
Proof.
  intros Hv. destruct v as [s|]; [now apply Yields_if|].
  exists r, h. now split.
Qed.

Lemma Yields_sortStage key h0 h r a :
  View h0 h r a ->
  Yields h0
    match key with
    | None => ret r
    | Some k =>
        if String.eqb k "price_asc" then sort byPriceAsc r
        else if String.eqb k "price_desc" then sort byPriceDesc r
        else if String.eqb k "area_desc" then sort byAreaDesc r
        else if String.eqb k "newest" then sort byNewest r
        else ret r
    end h (sortStage key a).
Proof.
  intros Hv. unfold sortStage.
  assert (Hsort : forall cmp, Yields h0 (sort cmp r) h (JS.sort cmp a)).
  { intros cmp. destruct (sort_view cmp _ _ _ _ Hv) as [Hrun Hview].
    exists r, (<[r := JS.sort cmp a]> h). now split. }
  assert (Hret : Yields h0 (ret r) h a) by (exists r, h; now split).
  destruct key as [k|]; [|exact Hret].
  destruct (String.eqb k "price_asc"); [apply Hsort|].
  destruct (String.eqb k "price_desc"); [apply Hsort|].
  destruct (String.eqb k "area_desc"); [apply Hsort|].
  destruct (String.eqb k "newest"); [apply Hsort|].
  exact Hret.
Qed.

(** [getListingsList] on the store: it ends; the array it returns holds
    the listings of [searchResults], and did not exist before; every array
    that existed before, [MOCK_DATA] among them, is as it was. *)
Lemma getListingsList_Yields (Number : string -> JS.JSNumber) h MOCK_DATA
  data f :
  h !! MOCK_DATA = Some data ->
  Yields h (getListingsList Number MOCK_DATA f) h (searchResults Number data f).
Proof.
  intros Hdata. unfold getListingsList, searchResults, filterStages.
  cbv zeta.
  eapply Yields_bind.
  { exists (fresh (dom h)), (<[fresh (dom h) := data]> h).
    split; [now apply run_spread|]. apply View_alloc, Unchanged_refl. }
  intros r1 h1 Hv1. eapply Yields_bind; [apply Yields_if, Hv1|].
  intros r2 h2 Hv2. eapply Yields_bind;
    [apply (Yields_match (Filters.city f) JS.truthy
              (fun v x => String.eqb (city x) v)), Hv2|].
  intros r3 h3 Hv3. eapply Yields_bind;
    [apply (Yields_match (Filters.type f) JS.truthy
              (fun v x => String.eqb (type x) v)), Hv3|].
  intros r4 h4 Hv4. eapply Yields_bind;
    [apply (Yields_match (numericFilter Number (Filters.minPrice f))
              (fun n => negb (JS.isNaN n))
              (fun n x => JS.geNum (price x) n)), Hv4|].
  intros r5 h5 Hv5. eapply Yields_bind;
    [apply (Yields_match (numericFilter Number (Filters.maxPrice f))
              (fun n => negb (JS.isNaN n))
              (fun n x => JS.leNum (price x) n)), Hv5|].
  intros r6 h6 Hv6. eapply Yields_bind;
    [apply (Yields_match (numericFilter Number (Filters.beds f))
              (fun n => negb (JS.isNaN n))
              (fun n x => JS.geNum (orZero (beds x)) n)), Hv6|].
  intros r7 h7 Hv7. now apply Yields_sortStage.
Qed.

(** The blocks of [getRelatedListingData]: each makes its result out of
    arrays of its own and leaves the arrays it found as they were. *)
Lemma filter_slice_Yields p n h MOCK_DATA data :
  h !! MOCK_DATA = Some data ->
  Yields h (do all <- filter p MOCK_DATA; slice n all) h
    (firstn n (List.filter p data)).
Proof.
  intros Hdata. unfold Yields, bind. rewrite (run_filter _ _ _ _ Hdata).
  erewrite run_slice by apply lookup_insert_eq.
  eexists _, _. split; [reflexivity|]. apply View_alloc, Unchanged_alloc.
Qed.

Lemma filter_sort_slice_Yields p cmp n h MOCK_DATA data :
  h !! MOCK_DATA = Some data ->
  Yields h
    (do others <- filter p MOCK_DATA;
     do sorted <- sort cmp others;
     slice n sorted) h
    (firstn n (JS.sort cmp (List.filter p data))).
Proof.
  intros Hdata. unfold Yields, bind. rewrite (run_filter _ _ _ _ Hdata).
  destruct (sort_view cmp h (<[fresh (dom h) := List.filter p data]> h)
              (fresh (dom h)) (List.filter p data)) as [Hrun (Hu & _ & Hr)].
  { apply View_alloc, Unchanged_refl. }
  rewrite Hrun. erewrite run_slice by exact Hr.
  eexists _, _. split; [reflexivity|]. now apply View_alloc.
Qed.

Lemma FreshArray_later h0 h1 h2 r a :
  Unchanged h0 h1 -> FreshArray h1 h2 r a -> h0 !! r = None.
Proof.
  intros Hu [Hr _]. destruct (h0 !! r) as [x|] eqn:Hx; [|reflexivity].
  apply Hu in Hx. congruence.
Qed.

(** [getRelatedListingData] on the store: it ends; the three arrays it
    returns hold the lists of [relatedBundle] and did not exist before;
    every array that existed before, [MOCK_DATA] among them, is as it
    was. *)
Lemma getRelatedListingData_store h MOCK_DATA data listingId :
  h !! MOCK_DATA = Some data ->
  exists res h',
    getRelatedListingData MOCK_DATA listingId h = Some (res, h')
    /\ Unchanged h h'
    /\ match List.find (idIs (JS.parseInt10 listingId)) data, res with
       | None, None => True
       | Some listing, Some rel =>
           let b := relatedBundle data listingId listing in
           FreshArray h h' (inCity rel) (relatedInCity b)
           /\ FreshArray h h' (byType rel) (relatedByType b)
           /\ FreshArray h h' (similar rel) (similarPrice b)
           /\ cityCounts rel = cityStats b
           /\ typeCounts rel = typeStats b
       | _, _ => False
       end.
Proof.
  intros Hdata. unfold getRelatedListingData.
  unfold bind at 1. unfold find at 1. unfold bind at 1.
  rewrite (run_read _ _ _ Hdata). unfold ret at 1.
  destruct (List.find (idIs (JS.parseInt10 listingId)) data) as [listing|].
  2:{ exists None, h. split; [reflexivity|]. split; [apply Unchanged_refl|exact I]. }
  destruct (filter_slice_Yields
              (fun x => String.eqb (city x) (city listing)
                        && negb (idIs (JS.parseInt10 listingId) x))
              3 h MOCK_DATA data Hdata)
    as (r1 & h1 & E1 & U1 & F1).
  assert (Hdata1 : h1 !! MOCK_DATA = Some data) by now apply U1.
  destruct (filter_slice_Yields
              (fun x => String.eqb (type x) (type listing)
                        && negb (idIs (JS.parseInt10 listingId) x))
              3 h1 MOCK_DATA data Hdata1)
    as (r2 & h2 & E2 & U2 & F2).
  assert (Hdata2 : h2 !! MOCK_DATA = Some data) by now apply U2.
  destruct (filter_sort_slice_Yields
              (fun x => negb (idIs (JS.parseInt10 listingId) x))
              (byPriceDistance listing) 3 h2 MOCK_DATA data Hdata2)
    as (r3 & h3 & E3 & U3 & F3).
  assert (Hdata3 : h3 !! MOCK_DATA = Some data) by now apply U3.
  unfold bind at 1. rewrite E1.
  unfold bind at 1. rewrite E2.
  unfold bind at 1. rewrite E3.
  unfold statsOf, bind, ret.
  repeat (rewrite (run_read _ _ _ Hdata3); cbv beta iota).
  eexists _, _. split; [reflexivity|].
  split; [eauto using Unchanged_trans|]. simpl.
  destruct F1 as [F1 F1'], F2 as [F2 F2'], F3 as [F3 F3'].
  repeat split; try reflexivity.
  - exact F1.
  - now apply U3, U2.
  - eapply FreshArray_later; [exact U1 | split; [exact F2 | exact F2']].
  - now apply U3.
  - eapply FreshArray_later;
      [eapply Unchanged_trans; [exact U1 | exact U2]
      | split; [exact F3 | exact F3']].
  - exact F3'.
Qed.

End StoreFacts.

(** C8: neither the search nor the related-listings query changes the
    collection: when they end, every array the store held before, the
    collection among them, holds the same listings in the same order
    (listings are values: their fields are never written), and what they
    return is in arrays that did not exist before. *)
Theorem C8_no_mutation (Number : string -> JS.JSNumber)
  (h : gmap nat (list Listing)) (MOCK_DATA : nat) (data : list Listing)
  (f : Filters.t) (listingId : string) :
  h !! MOCK_DATA = Some data ->
  (exists r h',
      Store.getListingsList Number MOCK_DATA f h = Some (r, h')
      /\ h' !! MOCK_DATA = Some data
      /\ Unchanged h h'
      /\ FreshArray h h' r (searchResults Number data f))
  /\ (exists res h',
        Store.getRelatedListingData MOCK_DATA listingId h = Some (res, h')
        /\ h' !! MOCK_DATA = Some data
        /\ Unchanged h h'
        /\ match List.find (idIs (JS.parseInt10 listingId)) data, res with
           | None, None => True
           | Some listing, Some rel =>
               let b := relatedBundle data listingId listing in
               FreshArray h h' (Store.inCity rel) (relatedInCity b)
               /\ FreshArray h h' (Store.byType rel) (relatedByType b)
               /\ FreshArray h h' (Store.similar rel) (similarPrice b)
               /\ Store.cityCounts rel = cityStats b
               /\ Store.typeCounts rel = typeStats b
           | _, _ => False
           end).
Proof.
  intros Hdata. split.
  - destruct (getListingsList_Yields Number h MOCK_DATA data f Hdata)
      as (r & h' & Hrun & Hu & Hfresh).
    exists r, h'. repeat split; try assumption; try apply Hfresh.
    now apply Hu.
  - destruct (getRelatedListingData_store h MOCK_DATA data listingId Hdata)
      as (res & h' & Hrun & Hu & Hres).
    exists res, h'. repeat split; try assumption. now apply Hu.
Qed.

Lemma C8_no_mutation_witness :
  exists r h',
    Store.getListingsList decimalNumber 0%nat (withSort "price_desc" Filters.empty)
      scenarioStore = Some (r, h')
    /\ h' !! 0%nat = Some scenario
    /\ h' !! r = Some [houseA; flatB; flatA].
Proof.
  destruct (C8_no_mutation decimalNumber scenarioStore 0%nat scenario
              (withSort "price_desc" Filters.empty) "1" eq_refl)
    as [(r & h' & Hrun & Hdata & _ & _ & Hr) _].
  exists r, h'. split; [exact Hrun|]. split; [exact Hdata | exact Hr].
Defined.

(** ** Ascending against descending *)

Lemma NoPriceTies_NoDup l :
  NoPriceTies l <-> NoDup (map (fun x => Qred (price x)) l).
Proof.
  rewrite NoDup_alt. unfold NoPriceTies. split.
  - intros H i j k Hi Hj.
    change (map (fun x => Qred (price x)) l) with ((fun x => Qred (price x)) <$> l) in *.
    rewrite list_lookup_fmap in Hi, Hj.
    destruct (l !! i) as [a|] eqn:Ha; [|discriminate].
    destruct (l !! j) as [b|] eqn:Hb; [|discriminate].
    simpl in Hi, Hj. destruct (decide (i = j)) as [|Hne]; [assumption|].
    exfalso. apply (H i j a b Ha Hb Hne).
    rewrite <- (Qred_correct (price a)), <- (Qred_correct (price b)).
    injection Hi as Hi. injection Hj as Hj. now rewrite Hi, Hj.
  - intros H i j a b Ha Hb Hne Heq. apply Hne.
    apply (H i j (Qred (price a)));
      change (map (fun x => Qred (price x)) l) with ((fun x => Qred (price x)) <$> l);
      rewrite list_lookup_fmap.
    + now rewrite Ha.
    + rewrite Hb. simpl. f_equal. symmetry. now apply Qred_complete.
Qed.

Lemma NoPriceTies_Permutation l l' :
  Permutation l l' -> NoPriceTies l -> NoPriceTies l'.
Proof.
  intros Hp. rewrite !NoPriceTies_NoDup.
  assert (Hm := Permutation_map (fun x => Qred (price x)) Hp).
  now rewrite Hm.
Qed.

Lemma sorted_strict (rel : Q -> Q -> Prop) l :
  NoDup (map (fun x => Qred (price x)) l) ->
  StronglySorted (fun a b => rel (price a) (price b)) l ->
  StronglySorted (fun a b => rel (price a) (price b) /\ ~ (price a == price b)%Q) l.
Proof.
  intros Hnd Hs. induction Hs as [|x l Hs IH Hx]; [constructor|].
  simpl in Hnd. apply NoDup_cons in Hnd as [Hx' Hnd].
  constructor; [now apply IH|].
  rewrite Forall_forall in Hx. apply Forall_forall. intros y Hy.
  split; [now apply Hx|].
  intros Heq. apply Hx'. apply list_elem_of_In, in_map_iff.
  exists y. split; [|now apply list_elem_of_In].
  symmetry. now apply Qred_complete.
Qed.

Lemma StronglySorted_rev {A : Type} (R : A -> A -> Prop) l :
  StronglySorted R l -> StronglySorted (fun a b => R b a) (rev l).
Proof.
  induction 1 as [|x l Hs IH Hx]; simpl; [constructor|].
  apply StronglySorted_app_2; [|exact IH|repeat constructor].
  intros a b Ha Hb. apply list_elem_of_In in Ha, Hb.
  apply in_rev in Ha. destruct Hb as [<-|[]].
  rewrite Forall_forall in Hx. apply Hx. now apply list_elem_of_In.
Qed.

(** Without price ties, the descending sort is the reverse of the ascending
    one. *)
Lemma sort_price_reverse l :
  NoPriceTies l -> JS.sort byPriceAsc l = rev (JS.sort byPriceDesc l).
Proof.
  intros Hties.
  destruct (price_sorts l) as (Hasc & Hdesc).
  destruct Hasc as (Hp1 & Hs1 & _), Hdesc as (Hp2 & Hs2 & _).
  simpl in Hs1, Hs2.
  apply (StronglySorted_unique_strong
           (fun a b => (price a <= price b)%Q /\ ~ (price a == price b)%Q)).
  - intros a b _ _ [H1 H2] [H3 H4]. exfalso. apply H2. lra.
  - apply (sorted_strict Qle); [|exact Hs1].
    apply NoPriceTies_NoDup. eapply NoPriceTies_Permutation; [|exact Hties].
    now symmetry.
  - eapply StronglySorted_weaken;
      [|apply StronglySorted_rev, (sorted_strict (fun a b => (b <= a)%Q));
        [|exact Hs2]].
    + simpl. intros a b [H1 H2]. split; [exact H1|]. intros H. apply H2. lra.
    + apply NoPriceTies_NoDup. eapply NoPriceTies_Permutation; [|exact Hties].
      now symmetry.
  - rewrite Hp1, <- Permutation_rev. now symmetry.
Qed.

(** C9: when no two listings of the filtered set have the same price, the
    search sorted by [price_asc] and the search sorted by [price_desc], on
    the same collection and filters, are the reverse of each other. *)
Theorem C9_price_sorts_reversed (Number : string -> JS.JSNumber)
  (data : list Listing) (f : Filters.t) :
  NoPriceTies (filterStages Number f data) ->
  searchResults Number data (withSort "price_asc" f)
  = rev (searchResults Number data (withSort "price_desc" f)).
Proof.
  intros Hties. unfold searchResults.
  change (filterStages Number (withSort "price_asc" f) data)
    with (filterStages Number f data).
  change (filterStages Number (withSort "price_desc" f) data)
    with (filterStages Number f data).
  now apply sort_price_reverse.
Qed.

Lemma scenario_NoPriceTies : NoPriceTies scenario.
Proof.
  apply NoPriceTies_NoDup. vm_compute.
  repeat (constructor; [rewrite ?elem_of_cons, elem_of_nil; intuition discriminate|]).
  constructor.
Qed.

Lemma C9_price_sorts_reversed_witness :
  searchResults decimalNumber scenario (withSort "price_asc" Filters.empty)
  = rev (searchResults decimalNumber scenario (withSort "price_desc" Filters.empty)).
Proof.
  apply (C9_price_sorts_reversed decimalNumber scenario Filters.empty).
  exact scenario_NoPriceTies.
Defined.

(** ** Trimming of the search term *)




(** ** The scenario of the specification *)

Example scenario_search_city :
  searchResults decimalNumber scenario
    {| Filters.q := None; Filters.city := Some "A"; Filters.type := None;
       Filters.minPrice := None; Filters.maxPrice := None;
       Filters.beds := None; Filters.sort := None |}
  = [flatA; houseA].
Proof. reflexivity. Qed.

Example scenario_search_minPrice :
  searchResults decimalNumber scenario
    {| Filters.q := None; Filters.city := None; Filters.type := None;
       Filters.minPrice := Some "120"; Filters.maxPrice := None;
       Filters.beds := None; Filters.sort := None |}
  = [houseA; flatB].
Proof. reflexivity. Qed.

Example scenario_search_unparseable :
  searchResults decimalNumber scenario
    {| Filters.q := None; Filters.city := None; Filters.type := None;
       Filters.minPrice := Some "cheap"; Filters.maxPrice := Some "";
       Filters.beds := None; Filters.sort := Some "cheapest" |}
  = scenario.
Proof. reflexivity. Qed.

Example scenario_search_empty (f : Filters.t) :
  searchResults decimalNumber [] f = [].
Proof.
  unfold searchResults. rewrite filterStages_stages, applyStages_filter.
  simpl. unfold sortStage. destruct (Filters.sort f) as [k|]; [|reflexivity].
  repeat match goal with
         | |- context [String.eqb k ?s] => destruct (String.eqb k s)
         end; reflexivity.
Qed.

Example scenario_related :
  map id (relatedInCity (relatedBundle scenario "1" flatA)) = [2]
  /\ map id (relatedByType (relatedBundle scenario "1" flatA)) = [3]
  /\ map id (similarPrice (relatedBundle scenario "1" flatA)) = [3; 2]
  /\ cityStats (relatedBundle scenario "1" flatA) = Some [("A", 2); ("B", 1)]
  /\ typeStats (relatedBundle scenario "1" flatA) = Some [("flat", 2); ("house", 1)].
Proof. repeat split; reflexivity. Qed.

Example scenario_detail_missing :
  getListingDetail (contextOf None false false (Some scenario)) "999"
  = Fulfilled notFound.
Proof. reflexivity. Qed.

(** * Further properties *)

(** ** The source selector, on every path *)

Lemma isString_true v s : isString v s = true -> v = Some s.
Proof.
  destruct v as [s'|]; simpl; [|discriminate].
  now intros ->%String.eqb_eq.
Qed.

Lemma sourceParam_cases c :
  sourceParam c = Some "mock" \/ sourceParam c = Some "db"
  \/ (sourceParam c <> Some "mock" /\ sourceParam c <> Some "db").
Proof.
  destruct (isString (sourceParam c) "mock") eqn:H1.
  { left. now apply isString_true. }
  destruct (isString (sourceParam c) "db") eqn:H2.
  { right. left. now apply isString_true. }
  right. right. split; intros H; rewrite H in *; discriminate.
Qed.

Section SelectorPaths.
Context {R E World : Type}.
Implicit Types (dbLogic mockLogic : @Selector.Handler R E World).
Implicit Types (r : @Selector.Run E World).

Import Selector.

(** Where the database handler is called and answers, its answer is the
    selector's. *)
Lemma select_database_answer c dbLogic mockLogic r resp w :
  sourceParam c <> Some "mock" ->
  sourceParam c = Some "db" \/ hasDb c = true ->
  dbLogic c (world r) = (Fulfilled resp, w) ->
  selectDataSource c dbLogic mockLogic r
  = (Fulfilled resp, {| world := w; events := events r ++ [CallDb] |}).
Proof.
  intros Hmock Hdb Hrun.
  destruct (sourceParam_cases c) as [H|[H|[_ H]]]; [contradiction| |].
  - now rewrite select_db, await_run, Hrun.
  - destruct Hdb as [Hdb|Hdb]; [contradiction|].
    now rewrite select_automatic_db, Hrun.
Qed.

(** The three ways a call of [selectDataSource] can go. *)
Lemma select_paths c dbLogic mockLogic r :
  let result := selectDataSource c dbLogic mockLogic r in
  (events (snd result) = events r ++ [CallMock]
   /\ fst result = fst (mockLogic c (world r))
   /\ world (snd result) = snd (mockLogic c (world r))
   /\ sourceParam c <> Some "db")
  \/ (events (snd result) = events r ++ [CallDb]
      /\ fst result = fst (dbLogic c (world r))
      /\ world (snd result) = snd (dbLogic c (world r))
      /\ sourceParam c <> Some "mock"
      /\ (sourceParam c = Some "db" \/ exists resp, fst result = Fulfilled resp))
  \/ (exists err,
        events (snd result)
        = events r ++ [CallDb; ConsoleError fallbackMessage err; CallMock]
        /\ fst (dbLogic c (world r)) = Rejected err
        /\ fst result = fst (mockLogic c (snd (dbLogic c (world r))))
        /\ world (snd result) = snd (mockLogic c (snd (dbLogic c (world r))))
        /\ sourceParam c <> Some "mock" /\ sourceParam c <> Some "db"
        /\ hasDb c = true).
Proof.
  intros result. subst result.
  destruct (sourceParam_cases c) as [H|[H|[H1 H2]]].
  - left. rewrite select_mock, await_run by exact H. simpl.
    repeat split. rewrite H. discriminate.
  - right. left. rewrite select_db, await_run by exact H. simpl.
    repeat split; [rewrite H; discriminate | now left].
  - destruct (hasDb c) eqn:H3.
    + rewrite select_automatic_db by assumption.
      destruct (dbLogic c (world r)) as [[resp|err] w] eqn:Hrun; simpl.
      * right. left. repeat split; eauto.
      * right. right. exists err. repeat split; assumption.
    + left. rewrite select_automatic_mock, await_run by assumption. simpl.
      repeat split. assumption.
Qed.

End SelectorPaths.

(** X1: when the database handler is called (forced by source=db, or
    chosen because a database binding is present and the source is not
    forced to mock) and answers, its answer is returned as it is: the mock
    handler is not called and nothing is logged. *)
Theorem X1_database_answer_is_returned {R E World : Type} (c : Context)
  (dbLogic mockLogic : @Selector.Handler R E World)
  (r : @Selector.Run E World) (resp : R) (w : World) :
  sourceParam c <> Some "mock" ->
  sourceParam c = Some "db" \/ hasDb c = true ->
  dbLogic c (Selector.world r) = (Fulfilled resp, w) ->
  Selector.selectDataSource c dbLogic mockLogic r
  = (Fulfilled resp,
     {| Selector.world := w;
        Selector.events := Selector.events r ++ [Selector.CallDb] |}).
Proof. apply select_database_answer. Qed.

Lemma X1_database_answer_is_returned_witness :
  Selector.selectDataSource (contextOf None true false None)
    healthyDb (listingsMock decimalNumber Filters.empty) (Selector.start tt)
  = (Fulfilled (json (ListingsBody [] "database")),
     {| Selector.world := tt; Selector.events := [Selector.CallDb] |}).
Proof.
  apply (X1_database_answer_is_returned (contextOf None true false None)
           healthyDb (listingsMock decimalNumber Filters.empty)
           (Selector.start tt)).
  - discriminate.
  - right. reflexivity.
  - reflexivity.
Defined.

(** X2: whatever the request and the handlers, a call of
    [selectDataSource] goes one of three ways: the mock handler alone is
    called; the database handler alone is called; or the database handler is
    called, rejects, one line is logged and the mock handler is called.  So
    each handler is called at most once, a handler is always called, the
    answer is that of the handler called last, and a line is logged only for
    a failure of the database handler that the mock handler then covers. *)
Theorem X2_selector_paths {R E World : Type} (c : Context)
  (dbLogic mockLogic : @Selector.Handler R E World)
  (r : @Selector.Run E World) :
  let result := Selector.selectDataSource c dbLogic mockLogic r in
  let log := Selector.events (snd result) in
  (log = Selector.events r ++ [Selector.CallMock]
   /\ fst result = fst (mockLogic c (Selector.world r)))
  \/ (log = Selector.events r ++ [Selector.CallDb]
      /\ fst result = fst (dbLogic c (Selector.world r)))
  \/ (exists err,
        log = Selector.events r
              ++ [Selector.CallDb; Selector.ConsoleError fallbackMessage err;
                  Selector.CallMock]
        /\ fst (dbLogic c (Selector.world r)) = Rejected err
        /\ fst result
           = fst (mockLogic c (snd (dbLogic c (Selector.world r))))).
Proof.
  intros result log. subst log result.
  destruct (select_paths c dbLogic mockLogic r)
    as [(H1 & H2 & _)|[(H1 & H2 & _)|(err & H1 & H2 & H3 & _)]].
  - now left.
  - right. now left.
  - right. right. now exists err.
Qed.

(** ** The routers *)

Section RouterFacts.
Context {World : Type}.
Variable Number : string -> JS.JSNumber.
Variable selectAll : World -> Outcome (list Listing) Thrown * World.
Variable selectById : string -> World -> Outcome (list Listing) Thrown * World.
Implicit Types (r : @Selector.Run Thrown World) (w : World).

Import Selector.

(** Without a client in [c.env.SQL] the database handlers throw. *)
Lemma listingsDb_no_client c w :
  (forall e, env c = Some e -> SQL e = false) ->
  listingsDb selectAll c w = (Rejected TypeError, w).
Proof.
  intros H. unfold listingsDb, withSql.
  destruct (env c) as [e|]; [|reflexivity]. now rewrite (H e eq_refl).
Qed.

Lemma detailDb_no_client listingId c w :
  (forall e, env c = Some e -> SQL e = false) ->
  detailDb selectById listingId c w = (Rejected TypeError, w).
Proof.
  intros H. unfold detailDb, withSql.
  destruct (env c) as [e|]; [|reflexivity]. now rewrite (H e eq_refl).
Qed.

(** What the database handlers answer when they answer. *)
Lemma listingsDb_Fulfilled c w resp :
  fst (listingsDb selectAll c w) = Fulfilled resp ->
  exists rows, resp = json (ListingsBody rows "database").
Proof.
  unfold listingsDb.
  destruct (withSql c selectAll w) as [[rows|err] w'];
    simpl; intros [= <-]. eauto.
Qed.

Lemma detailDb_Fulfilled listingId c w resp :
  fst (detailDb selectById listingId c w) = Fulfilled resp ->
  resp = notFound \/ exists row, resp = json (ListingBody row "database").
Proof.
  unfold detailDb.
  destruct (withSql c (selectById listingId) w) as [[[|row rows]|err] w'];
    simpl; intros [= <-]; eauto.
Qed.

Lemma getListingDetail_Fulfilled c listingId resp :
  getListingDetail c listingId = Fulfilled resp ->
  resp = notFound
  \/ exists data x,
       mockData c = Some data /\ In x data
       /\ JS.parseInt10 listingId = Some (id x)
       /\ resp = json (ListingBody x "mock").
Proof.
  unfold getListingDetail. destruct (mockData c) as [data|]; [|discriminate].
  destruct (List.find _ data) as [x|] eqn:Hfind; intros [= <-]; [|now left].
  right. exists data, x. repeat split; [|now apply found_id with data].
  now apply find_some in Hfind.
Qed.

End RouterFacts.

Lemma RepositoryMock_no_data {World : Type}
  (mockLogic : @Selector.Handler Response Thrown World) c w :
  RepositoryMock mockLogic -> mockData c = None ->
  mockLogic c w = (Rejected TypeError, w).
Proof.
  intros [Number f | listingId | listingId] Hdata;
    unfold listingsMock, detailMock, relatedMock, getListingsList,
      getListingDetail, getRelatedListingData; now rewrite Hdata.
Qed.

(** X3: on the database path the related-listings route is not
    implemented: when the database handler is the one called (source=db, or
    a database binding with the source not forced to mock), the answer is the
    501 response whatever the id and whatever the mock data, and the mock
    handler is not called. *)
Theorem X3_related_route_not_implemented {World : Type} (listingId : string)
  (c : Context) (r : @Selector.Run Thrown World) :
  sourceParam c <> Some "mock" ->
  sourceParam c = Some "db" \/ hasDb c = true ->
  relatedRoute listingId c r
  = (Fulfilled notImplemented,
     {| Selector.world := Selector.world r;
        Selector.events := Selector.events r ++ [Selector.CallDb] |})
  /\ status notImplemented = 501 /\ sourceOf notImplemented = None.
Proof.
  intros H1 H2. split; [|split; reflexivity].
  unfold relatedRoute. now apply select_database_answer.
Qed.

Lemma X3_related_route_not_implemented_witness :
  getRelatedListingData (requestWith [] {| SQL := true; DB := false;
                                           MOCK_DATA := Some scenario |}) "1"
  = Fulfilled (json (RelatedBody (relatedBundle scenario "1" flatA) "mock"))
  /\ relatedRoute "1"
       (requestWith [] {| SQL := true; DB := false; MOCK_DATA := Some scenario |})
       (Selector.start tt)
     = (Fulfilled notImplemented,
        {| Selector.world := tt; Selector.events := [Selector.CallDb] |}).
Proof.
  split; [reflexivity|].
  apply (X3_related_route_not_implemented "1"
           (requestWith [] {| SQL := true; DB := false;
                              MOCK_DATA := Some scenario |})
           (Selector.start tt)).
  - discriminate.
  - right. reflexivity.
Defined.

(** X4: a database binding without an SQL client ([c.env.DB] set,
    [c.env.SQL] not) counts as a database, but the database handlers of the
    listings router use [c.env.SQL] and throw a TypeError.  Without an
    override every request is then answered by the mock handler after one
    logged failure; with source=db the TypeError is the answer. *)
Theorem X4_binding_without_client {World : Type}
  (Number : string -> JS.JSNumber)
  (selectAll : World -> Outcome (list Listing) Thrown * World)
  (selectById : string -> World -> Outcome (list Listing) Thrown * World)
  (listingId : string) (c : Context) (e : Env) (qf : Query)
  (record : string -> option string) (r : @Selector.Run Thrown World) :
  env c = Some e -> SQL e = false -> DB e = true ->
  query c = Some qf -> all qf = Some record ->
  sourceParam c <> Some "mock" ->
  let fallback :=
    {| Selector.world := Selector.world r;
       Selector.events :=
         Selector.events r
         ++ [Selector.CallDb; Selector.ConsoleError fallbackMessage TypeError;
             Selector.CallMock] |} in
  let failure :=
    (Rejected TypeError,
     {| Selector.world := Selector.world r;
        Selector.events := Selector.events r ++ [Selector.CallDb] |}) in
  (sourceParam c = Some "db" ->
   listingsRoute Number selectAll c r = failure
   /\ detailRoute selectById listingId c r = failure)
  /\ (sourceParam c <> Some "db" ->
      listingsRoute Number selectAll c r
      = (getListingsList Number c (filtersOf record), fallback)
      /\ detailRoute selectById listingId c r
         = (getListingDetail c listingId, fallback)).
Proof.
  intros He Hsql Hdb Hq Hall Hmock fallback failure.
  assert (Hno : forall e', env c = Some e' -> SQL e' = false).
  { intros e' He'. rewrite He in He'. now injection He' as <-. }
  assert (Hhas : hasDb c = true).
  { unfold hasDb. rewrite He, Hsql, Hdb. reflexivity. }
  unfold listingsRoute, detailRoute. rewrite Hq, Hall. split.
  - intros Hforce. split.
    + rewrite select_db, await_run by exact Hforce.
      now rewrite listingsDb_no_client.
    + rewrite select_db, await_run by exact Hforce.
      now rewrite detailDb_no_client.
  - intros Hfree. split.
    + rewrite select_automatic_db by assumption.
      now rewrite listingsDb_no_client.
    + rewrite select_automatic_db by assumption.
      now rewrite detailDb_no_client.
Qed.

Lemma X4_binding_without_client_witness :
  listingsRoute decimalNumber scenarioSelectAll
    (requestWith [("city", "B")]
       {| SQL := false; DB := true; MOCK_DATA := Some scenario |})
    (Selector.start tt)
  = (Fulfilled (json (ListingsBody [flatB] "mock")),
     {| Selector.world := tt;
        Selector.events :=
          [Selector.CallDb; Selector.ConsoleError fallbackMessage TypeError;
           Selector.CallMock] |}).
Proof.
  set (c := requestWith [("city", "B")]
              {| SQL := false; DB := true; MOCK_DATA := Some scenario |}).
  destruct (X4_binding_without_client decimalNumber scenarioSelectAll
              scenarioSelectById "1" c
              {| SQL := false; DB := true; MOCK_DATA := Some scenario |}
              {| param := fun k =>
                   match List.find (fun kv => String.eqb (fst kv) k)
                           [("city", "B")] with
                   | Some kv => Some (snd kv)
                   | None => None
                   end;
                 all := Some (fun k =>
                   match List.find (fun kv => String.eqb (fst kv) k)
                           [("city", "B")] with
                   | Some kv => Some (snd kv)
                   | None => None
                   end) |}
              (fun k =>
                 match List.find (fun kv => String.eqb (fst kv) k)
                         [("city", "B")] with
                 | Some kv => Some (snd kv)
                 | None => None
                 end)
              (Selector.start tt)
              eq_refl eq_refl eq_refl eq_refl eq_refl)
    as [_ H]; [discriminate|].
  destruct H as [H _]; [discriminate|]. exact H.
Defined.

(** X5: the listings route tags its answers truthfully.  Every answer it
    is fulfilled with has status 200 and carries the listings either of the
    database, tagged "database", in which case the database handler alone
    was called, or of the search on the mock data with the request's
    parameters, tagged "mock", in which case the mock handler was called. *)
Theorem X5_listings_route_answers {World : Type}
  (Number : string -> JS.JSNumber)
  (selectAll : World -> Outcome (list Listing) Thrown * World)
  (c : Context) (r : @Selector.Run Thrown World) (resp : Response) :
  let result := listingsRoute Number selectAll c r in
  fst result = Fulfilled resp ->
  status resp = 200
  /\ ((exists rows,
         resp = json (ListingsBody rows "database")
         /\ Selector.events (snd result)
            = Selector.events r ++ [Selector.CallDb])
      \/ (exists data qf record,
            mockData c = Some data /\ query c = Some qf
            /\ all qf = Some record
            /\ resp = json (ListingsBody
                              (searchResults Number data (filtersOf record))
                              "mock")
            /\ Selector.count Selector.isCallMock (Selector.events (snd result))
               = S (Selector.count Selector.isCallMock (Selector.events r)))).
Proof.
  intros result. subst result. unfold listingsRoute.
  destruct (query c) as [qf|] eqn:Hq; [|discriminate].
  destruct (all qf) as [record|] eqn:Hall; [|discriminate].
  assert (Hmock : forall w : World,
            fst (listingsMock Number (filtersOf record) c w) = Fulfilled resp ->
            exists data, mockData c = Some data
              /\ resp = json (ListingsBody
                                (searchResults Number data (filtersOf record))
                                "mock")).
  { intros w. unfold listingsMock, getListingsList. simpl.
    destruct (mockData c) as [data|]; [|discriminate].
    intros [= <-]. eauto. }
  destruct (select_paths c (listingsDb selectAll)
              (listingsMock Number (filtersOf record)) r)
    as [(H1 & H2 & _)|[(H1 & H2 & _)|(err & H1 & _ & H2 & _)]];
    intros Hresp; rewrite H2 in Hresp.
  - apply Hmock in Hresp as (data & Hdata & ->). split; [reflexivity|].
    right. exists data, qf, record. repeat split; try assumption.
    rewrite H1, count_app. unfold Selector.count. simpl. lia.
  - apply listingsDb_Fulfilled in Hresp as (rows & ->). split; [reflexivity|].
    left. eauto.
  - apply Hmock in Hresp as (data & Hdata & ->). split; [reflexivity|].
    right. exists data, qf, record. repeat split; try assumption.
    rewrite H1, count_app. unfold Selector.count. simpl. lia.
Qed.

Lemma X5_listings_route_answers_witness :
  status (json (ListingsBody scenario "database")) = 200
  /\ fst (listingsRoute decimalNumber scenarioSelectAll
            (requestWith [("city", "B")]
               {| SQL := true; DB := false; MOCK_DATA := None |})
            (Selector.start tt))
     = Fulfilled (json (ListingsBody scenario "database")).
Proof.
  split; [|reflexivity].
  apply (X5_listings_route_answers decimalNumber scenarioSelectAll
           (requestWith [("city", "B")]
              {| SQL := true; DB := false; MOCK_DATA := None |})
           (Selector.start tt) (json (ListingsBody scenario "database"))
           eq_refl).
Defined.

(** X6: the answers of the detail route.  Every answer it is fulfilled
    with is the not-found response, the same on both paths (status 404, no
    source); or the first row the database returned, tagged "database"; or a
    listing of the mock data whose id is the one parsed from the route
    parameter, tagged "mock". *)
Theorem X6_detail_route_answers {World : Type}
  (selectById : string -> World -> Outcome (list Listing) Thrown * World)
  (listingId : string) (c : Context) (r : @Selector.Run Thrown World)
  (resp : Response) :
  fst (detailRoute selectById listingId c r) = Fulfilled resp ->
  (resp = notFound /\ status resp = 404 /\ sourceOf resp = None)
  \/ (exists row, resp = json (ListingBody row "database"))
  \/ (exists data x,
        mockData c = Some data /\ In x data
        /\ JS.parseInt10 listingId = Some (id x)
        /\ resp = json (ListingBody x "mock")).
Proof.
  unfold detailRoute.
  assert (Hmock : forall w : World,
            fst (detailMock listingId c w) = Fulfilled resp ->
            resp = notFound
            \/ exists data x,
                 mockData c = Some data /\ In x data
                 /\ JS.parseInt10 listingId = Some (id x)
                 /\ resp = json (ListingBody x "mock")).
  { intros w. unfold detailMock. simpl. apply getListingDetail_Fulfilled. }
  destruct (select_paths c (detailDb selectById listingId)
              (detailMock listingId) r)
    as [(_ & H2 & _)|[(_ & H2 & _)|(err & _ & _ & H2 & _)]];
    intros Hresp; rewrite H2 in Hresp.
  - apply Hmock in Hresp as [->|H]; [now left | now right; right].
  - apply detailDb_Fulfilled in Hresp as [->|H]; [now left | now right; left].
  - apply Hmock in Hresp as [->|H]; [now left | now right; right].
Qed.

Lemma X6_detail_route_answers_witness :
  fst (detailRoute scenarioSelectById "999"
         (requestWith [] {| SQL := true; DB := false; MOCK_DATA := None |})
         (Selector.start tt))
  = Fulfilled notFound
  /\ (notFound = notFound /\ status notFound = 404 /\ sourceOf notFound = None
      \/ (exists row, notFound = json (ListingBody row "database"))
      \/ (exists data x,
            mockData (requestWith [] {| SQL := true; DB := false;
                                        MOCK_DATA := None |}) = Some data
            /\ In x data /\ JS.parseInt10 "999" = Some (id x)
            /\ notFound = json (ListingBody x "mock"))).
Proof.
  split; [reflexivity|].
  apply (X6_detail_route_answers scenarioSelectById "999"
           (requestWith [] {| SQL := true; DB := false; MOCK_DATA := None |})
           (Selector.start tt) notFound eq_refl).
Defined.

(** ** The middleware and the routes behind it *)

(** X7: without the Hyperdrive binding, and with no SQL or DB binding in
    the environment, the middleware sets the mock data and every route is
    answered by its mock handler alone, unless source=db is forced: the
    listings route with the search on the mock dataset, tagged "mock"; the
    related route with the mock handler's answer (never the 501
    response). *)
Theorem X7_without_database {World : Type} (Number : string -> JS.JSNumber)
  (selectAll : World -> Outcome (list Listing) Thrown * World)
  (clientThrows : bool) (mockListings : list Listing) (e : Env)
  (listingId : string) (c : Context) (qf : Query)
  (record : string -> option string) (r : @Selector.Run Thrown World) :
  env c = Some (middleware false clientThrows mockListings e) ->
  SQL e = false -> DB e = false ->
  query c = Some qf -> all qf = Some record ->
  sourceParam c <> Some "db" ->
  let after :=
    {| Selector.world := Selector.world r;
       Selector.events := Selector.events r ++ [Selector.CallMock] |} in
  listingsRoute Number selectAll c r
  = (Fulfilled (json (ListingsBody
                        (searchResults Number mockListings (filtersOf record))
                        "mock")),
     after)
  /\ relatedRoute listingId c r = (getRelatedListingData c listingId, after)
  /\ exists resp, getRelatedListingData c listingId = Fulfilled resp
                  /\ resp <> notImplemented.
Proof.
  intros He Hsql Hdb Hq Hall Hforce after.
  assert (Hdata : mockData c = Some mockListings).
  { unfold mockData. now rewrite He. }
  assert (Hhas : hasDb c = false).
  { unfold hasDb. rewrite He. simpl. now rewrite Hsql, Hdb. }
  assert (Hsel : forall dbLogic mockLogic : @Selector.Handler Response Thrown World,
            Selector.selectDataSource c dbLogic mockLogic r
            = (fst (mockLogic c (Selector.world r)),
               {| Selector.world := snd (mockLogic c (Selector.world r));
                  Selector.events := Selector.events r ++ [Selector.CallMock] |})).
  { intros dbLogic mockLogic.
    destruct (sourceParam_cases c) as [H|[H|[H1 H2]]]; [|contradiction|].
    - now rewrite select_mock, await_run.
    - now rewrite select_automatic_mock, await_run. }
  unfold listingsRoute, relatedRoute. rewrite Hq, Hall, !Hsel.
  unfold listingsMock, relatedMock, getListingsList. simpl. rewrite Hdata.
  split; [reflexivity|]. split; [reflexivity|].
  unfold getRelatedListingData. rewrite Hdata.
  destruct (List.find _ mockListings); eexists; split;
    try reflexivity; discriminate.
Qed.

Lemma X7_without_database_witness :
  listingsRoute decimalNumber scenarioSelectAll
    {| query := Some {| param := fun _ => None;
                        all := Some (fun k => if String.eqb k "minPrice"
                                              then Some "120" else None) |};
       env := Some (middleware false false scenario noBindings) |}
    (Selector.start tt)
  = (Fulfilled (json (ListingsBody [houseA; flatB] "mock")),
     {| Selector.world := tt; Selector.events := [Selector.CallMock] |}).
Proof.
  destruct (X7_without_database decimalNumber scenarioSelectAll false scenario
              noBindings "1"
              {| query := Some {| param := fun _ => None;
                                  all := Some (fun k =>
                                    if String.eqb k "minPrice"
                                    then Some "120" else None) |};
                 env := Some (middleware false false scenario noBindings) |}
              {| param := fun _ => None;
                 all := Some (fun k => if String.eqb k "minPrice"
                                       then Some "120" else None) |}
              (fun k => if String.eqb k "minPrice" then Some "120" else None)
              (Selector.start tt) eq_refl eq_refl eq_refl eq_refl eq_refl)
    as [H _]; [discriminate|].
  exact H.
Defined.

(** X8: with the Hyperdrive binding the middleware makes the SQL client but
    sets no mock data.  If the environment brings none of its own, the mock
    handlers of the repository throw a TypeError: that is the answer to a
    request with source=mock, and the answer to a request without override
    whose database handler fails, after the failure is logged. *)
Theorem X8_hyperdrive_without_mock_data {World : Type}
  (mockListings : list Listing) (e : Env) (c : Context)
  (dbLogic mockLogic : @Selector.Handler Response Thrown World)
  (r : @Selector.Run Thrown World) :
  env c = Some (middleware true false mockListings e) ->
  MOCK_DATA e = None ->
  RepositoryMock mockLogic ->
  hasDb c = true
  /\ (sourceParam c = Some "mock" ->
      Selector.selectDataSource c dbLogic mockLogic r
      = (Rejected TypeError,
         {| Selector.world := Selector.world r;
            Selector.events := Selector.events r ++ [Selector.CallMock] |}))
  /\ (forall err w,
        sourceParam c <> Some "mock" -> sourceParam c <> Some "db" ->
        dbLogic c (Selector.world r) = (Rejected err, w) ->
        Selector.selectDataSource c dbLogic mockLogic r
        = (Rejected TypeError,
           {| Selector.world := w;
              Selector.events :=
                Selector.events r
                ++ [Selector.CallDb; Selector.ConsoleError fallbackMessage err;
                    Selector.CallMock] |})).
Proof.
  intros He Hnone Hrepo.
  assert (Hdata : mockData c = None).
  { unfold mockData. rewrite He. exact Hnone. }
  assert (Hhas : hasDb c = true).
  { unfold hasDb. now rewrite He. }
  split; [exact Hhas|]. split.
  - intros H. rewrite select_mock, await_run by exact H.
    now rewrite (RepositoryMock_no_data mockLogic c _ Hrepo Hdata).
  - intros err w H1 H2 Hrun.
    rewrite select_automatic_db, Hrun by assumption. simpl.
    now rewrite (RepositoryMock_no_data mockLogic c _ Hrepo Hdata).
Qed.

Lemma X8_hyperdrive_without_mock_data_witness :
  Selector.selectDataSource
    {| query := None; env := Some (middleware true false scenario noBindings) |}
    failingDb (detailMock "1") (Selector.start tt)
  = (Rejected TypeError,
     {| Selector.world := tt;
        Selector.events :=
          [Selector.CallDb;
           Selector.ConsoleError fallbackMessage (Failure "connection refused");
           Selector.CallMock] |}).
Proof.
  destruct (X8_hyperdrive_without_mock_data scenario noBindings
              {| query := None;
                 env := Some (middleware true false scenario noBindings) |}
              failingDb (detailMock "1") (Selector.start tt)
              eq_refl eq_refl (IsDetailMock "1"))
    as (_ & _ & H).
  apply (H (Failure "connection refused") tt); [discriminate | discriminate|].
  reflexivity.
Defined.

(** ** The search, as a whole *)

Lemma filter_sublist {A : Type} (p : A -> bool) l : sublist (List.filter p l) l.
Proof.
  induction l as [|x l IH]; simpl; [constructor|].
  destruct (p x); now constructor.
Qed.

Lemma filter_sublist_impl {A : Type} (p q : A -> bool) l :
  (forall x, p x = true -> q x = true) ->
  sublist (List.filter p l) (List.filter q l).
Proof.
  intros Hpq. induction l as [|x l IH]; simpl; [constructor|].
  destruct (p x) eqn:Hp.
  - rewrite (Hpq x Hp). now constructor.
  - destruct (q x); [now constructor | exact IH].
Qed.

Lemma filter_all {A : Type} (p : A -> bool) l :
  Forall (fun x => p x = true) l -> List.filter p l = l.
Proof.
  induction 1 as [|x l Hx _ IH]; simpl; [reflexivity|]. now rewrite Hx, IH.
Qed.

Lemma filter_none {A : Type} (p : A -> bool) l :
  (forall x, p x = false) -> List.filter p l = [].
Proof.
  intros H. induction l as [|x l IH]; simpl; [reflexivity|]. now rewrite H.
Qed.

Lemma sortStage_Permutation key l : Permutation (sortStage key l) l.
Proof.
  unfold sortStage. destruct key as [k|]; [|reflexivity].
  repeat match goal with
         | |- context [String.eqb k ?s] => destruct (String.eqb k s)
         end; try apply sort_Permutation. reflexivity.
Qed.

(** A sorted list is left as it is by the sort. *)
Lemma sort_of_sorted {A : Type} (cmp : A -> A -> Q) l :
  StronglySorted (fun a b => (cmp a b <= 0)%Q) l -> JS.sort cmp l = l.
Proof.
  induction 1 as [|x l Hs IH Hx]; simpl; [reflexivity|].
  rewrite IH. destruct l as [|y l]; simpl; [reflexivity|].
  apply Forall_cons in Hx as [Hxy _]. apply Qle_bool_iff in Hxy.
  now rewrite Hxy.
Qed.

Lemma sort_idem {A : Type} (cmp : A -> A -> Q) (key : A -> Q) l :
  (forall a b, (cmp a b <= 0)%Q <-> (key a <= key b)%Q) ->
  JS.sort cmp (JS.sort cmp l) = JS.sort cmp l.
Proof.
  intros Hcmp. apply sort_of_sorted.
  eapply StronglySorted_weaken; [|apply (sort_sorted cmp key Hcmp)].
  simpl. intros a b H. now apply Hcmp.
Qed.

Lemma sortStage_idem key l :
  sortStage key (sortStage key l) = sortStage key l.
Proof.
  unfold sortStage. destruct key as [k|]; [|reflexivity].
  destruct (String.eqb k "price_asc").
  { apply (sort_idem byPriceAsc price).
    intros a b. unfold byPriceAsc. split; intros H; lra. }
  destruct (String.eqb k "price_desc").
  { apply (sort_idem byPriceDesc (fun x => - price x)%Q).
    intros a b. unfold byPriceDesc. split; intros H; lra. }
  destruct (String.eqb k "area_desc").
  { apply (sort_idem byAreaDesc (fun x => - orZero (area_m2 x))%Q).
    intros a b. unfold byAreaDesc. split; intros H; lra. }
  destruct (String.eqb k "newest").
  { apply (sort_idem byNewest (fun x => - inject_Z (timeOf x))%Q).
    intros a b. unfold byNewest. split; intros H; lra. }
  reflexivity.
Qed.

(** The test a listing passes to be kept: that of every stage not
    skipped. *)
Lemma filterStages_filter (Number : string -> JS.JSNumber) f data :
  filterStages Number f data
  = List.filter
      (fun x => forallb (fun st : Stage =>
                  match st with Some keep => keep x | None => true end)
                  (stages Number f))
      data.
Proof. rewrite filterStages_stages. apply applyStages_filter. Qed.

Lemma forallb_Permutation {A : Type} (p : A -> bool) l l' :
  Permutation l l' -> forallb p l = forallb p l'.
Proof.
  induction 1 as [|x l l' _ IH|x y l|l l' l'' _ IH1 _ IH2]; simpl.
  - reflexivity.
  - now rewrite IH.
  - now rewrite !andb_assoc, (andb_comm (p y)).
  - now rewrite IH1.
Qed.

(** X9: the search only selects: the listings that pass the filters are a
    subsequence of the collection (same listings, same relative order),
    and the answer is a rearrangement of them.  So it never has more
    listings than the collection, every listing of the answer is one of the
    collection, and on an empty collection the answer is empty. *)
Theorem X9_search_selects (Number : string -> JS.JSNumber)
  (data : list Listing) (f : Filters.t) :
  sublist (filterStages Number f data) data
  /\ Permutation (searchResults Number data f) (filterStages Number f data)
  /\ (forall x, In x (searchResults Number data f) -> In x data)
  /\ (length (searchResults Number data f) <= length data)%nat
  /\ (data = [] -> searchResults Number data f = []).
Proof.
  assert (Hsub : sublist (filterStages Number f data) data).
  { rewrite filterStages_filter. apply filter_sublist. }
  assert (Hperm : Permutation (searchResults Number data f)
                    (filterStages Number f data)).
  { apply sortStage_Permutation. }
  assert (Hlen : (length (searchResults Number data f) <= length data)%nat).
  { rewrite (Permutation_length Hperm). now apply sublist_length. }
  split; [exact Hsub|]. split; [exact Hperm|]. split; [|split; [exact Hlen|]].
  - intros x Hx. apply list_elem_of_In.
    eapply elem_of_sublist; [|exact Hsub].
    apply list_elem_of_In. eapply Permutation_in; [exact Hperm | exact Hx].
  - intros ->. simpl in Hlen.
    destruct (searchResults Number [] f); [reflexivity | simpl in Hlen; lia].
Qed.

(** X10: the order of the filter stages does not matter: applied in any
    other order, the six stages keep the same listings in the same
    order. *)
Theorem X10_stage_order_is_irrelevant (Number : string -> JS.JSNumber)
  (data : list Listing) (f : Filters.t) (sts : list Stage) :
  Permutation sts (stages Number f) ->
  applyStages sts data = filterStages Number f data.
Proof.
  intros Hperm. rewrite filterStages_filter, applyStages_filter.
  apply List.filter_ext. intros x. now apply forallb_Permutation.
Qed.

Lemma X10_stage_order_is_irrelevant_witness :
  applyStages (rev (stages decimalNumber looseQuery)) [loft; flatA]
  = filterStages decimalNumber looseQuery [loft; flatA].
Proof.
  apply (X10_stage_order_is_irrelevant decimalNumber [loft; flatA] looseQuery).
  symmetry. apply Permutation_rev.
Defined.

(** X11: searching the answer again with the same parameters changes
    nothing. *)
Theorem X11_search_is_idempotent (Number : string -> JS.JSNumber)
  (data : list Listing) (f : Filters.t) :
  searchResults Number (searchResults Number data f) f
  = searchResults Number data f.
Proof.
  unfold searchResults at 1.
  assert (Hkeep : filterStages Number f (searchResults Number data f)
                  = searchResults Number data f).
  { rewrite filterStages_filter. apply filter_all.
    apply Forall_forall. intros x Hx%list_elem_of_In.
    unfold searchResults in Hx.
    eapply Permutation_in in Hx; [|apply sortStage_Permutation].
    rewrite filterStages_filter in Hx. now apply List.filter_In in Hx. }
  rewrite Hkeep. unfold searchResults. apply sortStage_idem.
Qed.

Lemma isWhiteSpace_lowerChar c :
  JS.isWhiteSpace (JS.lowerChar c) = JS.isWhiteSpace c.
Proof. destruct c as [[] [] [] [] [] [] [] []]; reflexivity. Qed.

Lemma toLowerCase_trimStart s :
  JS.toLowerCase (JS.trimStart s) = JS.trimStart (JS.toLowerCase s).
Proof.
  induction s as [|c s IH]; simpl; [reflexivity|].
  rewrite isWhiteSpace_lowerChar. now destruct (JS.isWhiteSpace c).
Qed.

Lemma toLowerCase_trimEnd s :
  JS.toLowerCase (JS.trimEnd s) = JS.trimEnd (JS.toLowerCase s).
Proof.
  induction s as [|c s IH]; simpl; [reflexivity|].
  rewrite isWhiteSpace_lowerChar, <- IH, isEmpty_toLowerCase.
  now destruct (JS.isWhiteSpace c && JS.isEmpty (JS.trimEnd s)).
Qed.

Lemma toLowerCase_trim s : JS.toLowerCase (JS.trim s) = JS.trim (JS.toLowerCase s).
Proof. unfold JS.trim. now rewrite toLowerCase_trimEnd, toLowerCase_trimStart. Qed.

(** X12: the letter case of [q] does not matter: two search terms that are
    equal once lower-cased give the same answer, on every collection and
    with whatever other parameters. *)
Theorem X12_case_of_q_is_irrelevant (Number : string -> JS.JSNumber)
  (data : list Listing) (f : Filters.t) (q1 q2 : string) :
  JS.toLowerCase q1 = JS.toLowerCase q2 ->
  searchResults Number data (withQ (Some q1) f)
  = searchResults Number data (withQ (Some q2) f).
Proof.
  intros Hcase. unfold searchResults, filterStages, searchTerm. simpl.
  now rewrite !toLowerCase_trim, Hcase.
Qed.

Lemma X12_case_of_q_is_irrelevant_witness :
  searchResults decimalNumber [loft; flatA] (withQ (Some "LoFt PARIS") Filters.empty)
  = searchResults decimalNumber [loft; flatA] (withQ (Some "loft paris") Filters.empty).
Proof.
  apply (X12_case_of_q_is_irrelevant decimalNumber [loft; flatA] Filters.empty
           "LoFt PARIS" "loft paris").
  reflexivity.
Defined.

(** X13: leaving filter parameters out can only add listings: if each
    parameter of [f'] is the one of [f] or is absent, every listing the
    filters of [f] keep is kept by those of [f'], in the same order. *)
Theorem X13_fewer_parameters_keep_more (Number : string -> JS.JSNumber)
  (data : list Listing) (f f' : Filters.t) :
  Relaxes f' f ->
  sublist (filterStages Number f data) (filterStages Number f' data).
Proof.
  intros (Hq & Hcity & Htype & Hmin & Hmax & Hbeds).
  rewrite !filterStages_filter. apply filter_sublist_impl.
  intros x. unfold stages. cbn [forallb]. rewrite !andb_true_iff.
  intros (H1 & H2 & H3 & H4 & H5 & H6 & _).
  repeat split.
  - destruct Hq as [->| ->]; [exact H1 | reflexivity].
  - destruct Hcity as [->| ->]; [exact H2 | reflexivity].
  - destruct Htype as [->| ->]; [exact H3 | reflexivity].
  - destruct Hmin as [->| ->]; [exact H4 | reflexivity].
  - destruct Hmax as [->| ->]; [exact H5 | reflexivity].
  - destruct Hbeds as [->| ->]; [exact H6 | reflexivity].
Qed.

Lemma X13_fewer_parameters_keep_more_witness :
  sublist
    (filterStages decimalNumber
       (withCity (Some "A") (withMinPrice (Some "120") Filters.empty)) scenario)
    (filterStages decimalNumber (withCity (Some "A") Filters.empty) scenario).
Proof.
  apply (X13_fewer_parameters_keep_more decimalNumber scenario
           (withCity (Some "A") (withMinPrice (Some "120") Filters.empty))
           (withCity (Some "A") Filters.empty)).
  unfold Relaxes. simpl. tauto.
Defined.

(** X14: an inverted price range is not an error: when [minPrice] and
    [maxPrice] are both numbers and the minimum exceeds the maximum, the
    answer is the empty list, whatever the collection, the other parameters
    and the sort key. *)
Theorem X14_inverted_price_range (Number : string -> JS.JSNumber)
  (c : Context) (data : list Listing) (f : Filters.t)
  (smin smax : string) (a b : Q) :
  mockData c = Some data ->
  Filters.minPrice f = Some smin -> Filters.maxPrice f = Some smax ->
  Number smin = JS.Finite a -> Number smax = JS.Finite b ->
  smin <> EmptyString -> smax <> EmptyString ->
  (b < a)%Q ->
  getListingsList Number c f = Fulfilled (json (ListingsBody [] "mock")).
Proof.
  intros Hdata Hmin Hmax Ha Hb Hne1 Hne2 Hlt.
  unfold getListingsList, searchResults. rewrite Hdata.
  rewrite filterStages_filter, filter_none.
  { unfold sortStage. destruct (Filters.sort f) as [k|]; [|reflexivity].
    repeat match goal with
           | |- context [String.eqb k ?s] => destruct (String.eqb k s)
           end; reflexivity. }
  intros x. apply not_true_iff_false. unfold stages. cbn [forallb].
  rewrite !andb_true_iff. intros (_ & _ & _ & H4 & H5 & _).
  unfold boundStage, specifiedNumber, specified in H4, H5.
  rewrite Hmin in H4. rewrite Hmax in H5.
  destruct smin as [|c1 s1]; [congruence|].
  destruct smax as [|c2 s2]; [congruence|].
  simpl in H4, H5. rewrite Ha in H4. rewrite Hb in H5. simpl in H4, H5.
  apply Qle_bool_iff in H4, H5. lra.
Qed.

Lemma X14_inverted_price_range_witness :
  getListingsList decimalNumber (contextOf None false false (Some scenario))
    (withMinPrice (Some "200") (withMaxPrice (Some "100") Filters.empty))
  = Fulfilled (json (ListingsBody [] "mock")).
Proof.
  apply (X14_inverted_price_range decimalNumber
           (contextOf None false false (Some scenario)) scenario
           (withMinPrice (Some "200") (withMaxPrice (Some "100") Filters.empty))
           "200" "100" 200 100); try reflexivity; discriminate.
Defined.

(** ** The detail of a listing *)

Lemma unique_by_id (data : list Listing) x y :
  NoDup (map id data) -> In x data -> In y data -> id x = id y -> x = y.
Proof.
  induction data as [|z data IH]; simpl; [tauto|].
  intros [Hz Hnd]%NoDup_cons [->|Hx] [->|Hy] Heq; auto.
  - exfalso. apply Hz. rewrite Heq. apply list_elem_of_In. now apply in_map.
  - exfalso. apply Hz. rewrite <- Heq. apply list_elem_of_In. now apply in_map.
Qed.

(** X15: looking a listing up by its id.  If the route parameter parses
    to the id of a listing of the collection, the detail is found: the
    answer carries a listing of the collection with that id, tagged "mock",
    and when the ids of the collection are unique it is that very
    listing. *)
Theorem X15_detail_lookup (c : Context) (data : list Listing)
  (listingId : string) (x : Listing) :
  mockData c = Some data -> In x data ->
  JS.parseInt10 listingId = Some (id x) ->
  exists y,
    getListingDetail c listingId = Fulfilled (json (ListingBody y "mock"))
    /\ In y data /\ id y = id x
    /\ (NoDup (map id data) -> y = x).
Proof.
  intros Hdata Hx Hparse. unfold getListingDetail. rewrite Hdata, Hparse.
  destruct (List.find (idIs (Some (id x))) data) as [y|] eqn:Hfind.
  - apply find_some in Hfind as [Hy Hid]. simpl in Hid.
    apply Z.eqb_eq in Hid. exists y. repeat split; try assumption.
    intros Hnd. now apply (unique_by_id data).
  - apply find_None_Forall in Hfind. rewrite Forall_forall in Hfind.
    apply list_elem_of_In in Hx. specialize (Hfind x Hx). simpl in Hfind.
    now rewrite Z.eqb_refl in Hfind.
Qed.

Lemma X15_detail_lookup_witness :
  getListingDetail (contextOf None false false (Some scenario)) " 3rd"
  = Fulfilled (json (ListingBody flatB "mock")).
Proof.
  destruct (X15_detail_lookup (contextOf None false false (Some scenario))
              scenario " 3rd" flatB eq_refl)
    as (y & Hy & _ & _ & Huniq).
  - simpl. tauto.
  - reflexivity.
  - rewrite Hy, Huniq; [reflexivity|].
    vm_compute.
    repeat (constructor; [rewrite ?elem_of_cons, elem_of_nil; intuition discriminate|]).
    constructor.
Defined.

(** X16: the detail and the related listings agree.  For the same context
    and route parameter, one throws exactly when the other does (there is no
    mock data), one answers not found exactly when the other does, and when
    the detail is a listing, the related bundle is built for that listing:
    its city and type are the listing's. *)
Theorem X16_detail_and_related_agree (c : Context) (listingId : string) :
  (getListingDetail c listingId = Rejected TypeError
   <-> getRelatedListingData c listingId = Rejected TypeError)
  /\ (getListingDetail c listingId = Fulfilled notFound
      <-> getRelatedListingData c listingId = Fulfilled notFound)
  /\ (forall x,
        getListingDetail c listingId = Fulfilled (json (ListingBody x "mock")) ->
        exists data,
          mockData c = Some data
          /\ getRelatedListingData c listingId
             = Fulfilled (json (RelatedBody (relatedBundle data listingId x)
                                  "mock"))
          /\ listingCity (relatedBundle data listingId x) = city x
          /\ listingType (relatedBundle data listingId x) = type x).
Proof.
  unfold getListingDetail, getRelatedListingData.
  destruct (mockData c) as [data|].
  - destruct (List.find (idIs (JS.parseInt10 listingId)) data) as [y|].
    + split; [split; discriminate|]. split; [split; discriminate|].
      intros x [= <-]. exists data. repeat split.
    + split; [split; discriminate|]. split; [tauto|]. discriminate.
  - split; [tauto|]. split; [split; discriminate|]. discriminate.
Qed.

(** ** The related lists, further *)

Lemma related_lists (data : list Listing) (listingId : string)
  (listing : Listing) :
  List.find (idIs (JS.parseInt10 listingId)) data = Some listing ->
  let b := relatedBundle data listingId listing in
  let other := fun x => negb (id x =? id listing) in
  relatedInCity b
  = firstn 3 (List.filter
      (fun x => String.eqb (city x) (city listing) && other x) data)
  /\ relatedByType b
     = firstn 3 (List.filter
         (fun x => String.eqb (type x) (type listing) && other x) data)
  /\ similarPrice b
     = firstn 3 (JS.sort (byPriceDistance listing) (List.filter other data)).
Proof.
  intros Hfind b other.
  assert (Hid := found_id _ _ _ Hfind).
  assert (Hother : forall x, negb (idIs (JS.parseInt10 listingId) x) = other x).
  { intros x. unfold idIs, other. now rewrite Hid. }
  unfold b, relatedBundle. simpl. repeat split.
  - f_equal. apply List.filter_ext. intros x. now rewrite Hother.
  - f_equal. apply List.filter_ext. intros x. now rewrite Hother.
  - do 2 f_equal. apply List.filter_ext. intros x. now rewrite Hother.
Qed.

Lemma filter_and_then {A} (p q : A -> bool) (l : list A) :
  List.filter (fun x => p x && q x) l = List.filter p (List.filter q l).
Proof.
  induction l as [|x l IH]; simpl; [reflexivity|].
  destruct (q x); simpl; destruct (p x); simpl; now rewrite IH.
Qed.




(** X18: how many listings the related lists hold.  Each holds its first
    three candidates, or all of them when there are fewer: the similar-price
    list has as many listings as there are other listings, up to 3, and when
    there are at most 3 others it holds exactly these; the same-city and
    same-type lists have as many as there are other listings of that city or
    type, up to 3.  A collection in which every listing has the target's id
    gives three empty lists. *)
Theorem X18_related_list_sizes (data : list Listing) (listingId : string)
  (listing : Listing) :
  List.find (idIs (JS.parseInt10 listingId)) data = Some listing ->
  let b := relatedBundle data listingId listing in
  let other := fun x => negb (id x =? id listing) in
  let others := List.filter other data in
  length (similarPrice b) = Nat.min 3 (length others)
  /\ length (relatedInCity b)
     = Nat.min 3 (length (List.filter
                            (fun x => String.eqb (city x) (city listing)) others))
  /\ length (relatedByType b)
     = Nat.min 3 (length (List.filter
                            (fun x => String.eqb (type x) (type listing)) others))
  /\ ((length others <= 3)%nat -> Permutation (similarPrice b) others)
  /\ (others = [] ->
      relatedInCity b = [] /\ relatedByType b = [] /\ similarPrice b = []).
Proof.
  intros Hfind b other others.
  destruct (related_lists data listingId listing Hfind) as (E1 & E2 & E3).
  fold b in E1, E2, E3. fold other in E1, E2, E3. fold others in E3.
  assert (Hperm : Permutation (JS.sort (byPriceDistance listing) others) others)
    by apply sort_Permutation.
  rewrite (filter_and_then (fun x => String.eqb (city x) (city listing))) in E1.
  rewrite (filter_and_then (fun x => String.eqb (type x) (type listing))) in E2.
  fold other in E1, E2. fold others in E1, E2.
  rewrite E1, E2, E3, !length_firstn, (Permutation_length Hperm).
  split; [reflexivity|]. split; [reflexivity|]. split; [reflexivity|]. split.
  - intros Hle. rewrite firstn_all2; [exact Hperm|].
    now rewrite (Permutation_length Hperm).
  - intros Hnil. rewrite Hnil in *. simpl. repeat split; reflexivity.
Qed.

Lemma X18_related_list_sizes_witness :
  length (similarPrice (relatedBundle scenario "1" flatA)) = 2%nat
  /\ Permutation (similarPrice (relatedBundle scenario "1" flatA)) [houseA; flatB].
Proof.
  destruct (X18_related_list_sizes scenario "1" flatA eq_refl)
    as (H1 & _ & _ & H4 & _).
  split; [exact H1|]. apply H4. simpl. lia.
Defined.
